(** * qri update service: command construction, job constructors, start-up

    A shallow embedding of package [update] (the update service of qri):
    [Start]/[start], [Factory], [JobToCmd], [datasetSaveCmd],
    [shellScriptCmd], [DatasetToJob], [ShellScriptToJob] and
    [processJobError], together with the two flatbuffer IDL files of the
    cron job store and of the repo reference list. *)

From Stdlib Require Import ZArith Ascii String List.
From stdpp Require Import base option list strings gmap fin_maps.

Local Open Scope string_scope.
Local Open Scope list_scope.

(** ** Go prelude *)

Module Go.

(** A Go [error] value: [nil], or an error carrying its message. *)
Definition error : Type := option string.
Definition nil_error : error := None.

(** [fmt.Errorf] with an already formatted message. *)
Definition Errorf (msg : string) : error := Some msg.

(** [time.Time], as an offset from the zero value [time.Time{}]. *)
Definition Time : Type := Z.
Definition zero_Time : Time := 0%Z.

(** [strings.HasPrefix s p]. *)
Fixpoint HasPrefix (s p : string) {struct p} : bool :=
  match p with
  | EmptyString => true
  | String c p' =>
      match s with
      | EmptyString => false
      | String d s' => if Ascii.eqb c d then HasPrefix s' p' else false
      end
  end.

(** [strings.Contains s substr]: [substr] occurs somewhere within [s]. *)
Fixpoint Contains (s substr : string) : bool :=
  if HasPrefix s substr then true
  else match s with
       | EmptyString => false
       | String _ s' => Contains s' substr
       end.

(** The order in which a [range] statement visits the entries of a map.
    Go leaves it unspecified, and it may differ from one loop to the next:
    a [MapRange] picks the order, and is faithful only when it visits
    every entry exactly once ([MapRange_ok]). *)
Definition MapRange : Type := list (string * bool) -> list (string * bool).

Definition MapRange_ok (r : MapRange) : Prop := forall kvs, r kvs ≡ₚ kvs.

(** [for k, v := range m] yields the entries of [m] in the order [r]. *)
Definition range (r : MapRange) (m : gmap string bool) : list (string * bool) :=
  r (map_to_list m).

(** [os.IsPathSeparator]: the slash, and on Windows the backslash too. *)
Definition IsPathSeparator (windows : bool) (c : ascii) : bool :=
  Ascii.eqb c "/" || (windows && Ascii.eqb c "\").

(** The loop of [filepath.Ext], from index [i = n - 1] downwards: it
    stops at a path separator, and returns the suffix that starts at the
    first dot it meets. *)
Fixpoint Ext_loop (windows : bool) (path : string) (n : nat) : string :=
  match n with
  | 0 => ""
  | S i =>
      match String.get i path with
      | Some c =>
          if IsPathSeparator windows c then ""
          else if Ascii.eqb c "." then substring i (String.length path - i) path
          else Ext_loop windows path i
      | None => ""
      end
  end.

(** [filepath.Ext]. *)
Definition Ext (windows : bool) (path : string) : string :=
  Ext_loop windows path (String.length path).

End Go.

(** ** Package cron: the job record

    The declarations of package cron are not among the sources at hand;
    the update package uses them, and the store schema lists their
    fields. *)

Module cron.

(** Modelled from the spec: the job type of package cron, a string type
    whose two constants are spelled as the members of the schema's
    [JobType] enumeration. *)
Definition JobType : Type := string.
Definition JTDataset : JobType := "dataset".
Definition JTShellScript : JobType := "shell".

(** Modelled from the spec: the options of a dataset job, with the
    fields [datasetSaveCmd] reads and the schema's [DatasetOptions] table
    lists. *)
Record DatasetOptions : Type := {
  Title : string;
  Message : string;
  Recall : string;
  BodyPath : string;
  FilePaths : list string;
  Publish : bool;
  Strict : bool;
  Force : bool;
  ConvertFormatToPrev : bool;
  ShouldRender : bool;
  Config : list (string * string);
  Secrets : list (string * string)
}.

(** Modelled from the spec: the options of a shell script job; none. *)
Record ShellScriptOptions : Type := {}.

(** Modelled from the spec: the [Options] interface value held by a job:
    nil, or a pointer to one of the two option structs.  Pointers stored
    in it are non-nil, which is what [DatasetToJob] and
    [ShellScriptToJob] ensure before storing. *)
Inductive Options : Type :=
| NoOptions
| OfDataset (o : DatasetOptions)
| OfShellScript (o : ShellScriptOptions).

(** [iso8601.RepeatingInterval]: repetitions and the interval. *)
Record RepeatingInterval : Type := {
  Repititions : Z;
  IntervalStart : Go.Time;
  IntervalEnd : Go.Time;
  IntervalDuration : Z
}.

(** Modelled from the spec: the job record, with the fields of the
    schema's [Job] table. *)
Record Job : Type := {
  Name : string;
  Alias : string;
  Type_ : JobType;
  Periodicity : RepeatingInterval;
  PrevRunStart : Go.Time;
  RunNumber : Z;
  RunStart : Go.Time;
  RunStop : Go.Time;
  RunError : string;
  LogFilePath : string;
  Options_ : Options;
  RepoPath : string
}.

End cron.

(** ** Packages ioes and os/exec *)

Module ioes.

(** Where a stream ends up: a sink supplied by the caller, the in-memory
    capture buffer of [Factory], or an [io.MultiWriter] over two of them. *)
Inductive Writer : Type :=
| Sink (name : string)
| Buffer
| MultiWriter (w1 w2 : Writer).

Record IOStreams : Type := {
  In : string;
  Out : Writer;
  ErrOut : Writer
}.

Definition NewIOStreams (i : string) (o e : Writer) : IOStreams :=
  {| In := i; Out := o; ErrOut := e |}.

End ioes.

Module exec.

(** The fields of [exec.Cmd] the update service sets or leaves alone.
    [Path] is the command as named to [exec.Command] (os/exec looks a
    bare name up in PATH when the command starts).  [Args] is the whole
    argument vector, the command name first.  [Env] is [None] for a nil
    slice: the child then runs with the environment of the calling
    process. *)
Record Cmd : Type := {
  Path : string;
  Args : list string;
  Env : option (list string);
  Stdin : option string;
  Stdout : option ioes.Writer;
  Stderr : option ioes.Writer
}.

(** [exec.Command(name, arg...)]. *)
Definition Command (name : string) (arg : list string) : Cmd :=
  {| Path := name; Args := name :: arg; Env := None;
     Stdin := None; Stdout := None; Stderr := None |}.

Definition with_streams (c : Cmd) (streams : ioes.IOStreams) : Cmd :=
  {| Path := Path c; Args := Args c; Env := Env c;
     Stdin := Some (ioes.In streams);
     Stdout := Some (ioes.Out streams);
     Stderr := Some (ioes.ErrOut streams) |}.

End exec.

(** ** Package update: command construction *)

Module update.
Import cron.

(** The [boolFlags] map literal of [datasetSaveCmd]. *)
Definition boolFlags (o : DatasetOptions) : gmap string bool :=
  <["--publish" := Publish o]>
  (<["--strict" := Strict o]>
  (<["--force" := Force o]>
  (<["--keep-format" := ConvertFormatToPrev o]>
  (<["--no-render" := negb (ShouldRender o)]> ∅)))).

Definition append_if (cond : bool) (args : list string) (arg : string) : list string :=
  if cond then args ++ [arg] else args.

Definition nonempty (s : string) : bool := negb (String.eqb s "").

(** The arguments handed to [exec.Command "qri"] by [datasetSaveCmd]. *)
Definition datasetSaveArgs (r : Go.MapRange) (job : Job) : list string :=
  let args := ["save"; Name job] in
  let args := append_if (nonempty (RepoPath job)) args ("--repo=" +:+ RepoPath job) in
  match Options_ job with
  | OfDataset o =>
      let args := append_if (nonempty (Title o)) args ("--title=" +:+ Title o) in
      let args := append_if (nonempty (Message o)) args ("--message=" +:+ Message o) in
      let args := append_if (nonempty (Recall o)) args ("--recall=" +:+ Recall o) in
      let args := append_if (nonempty (BodyPath o)) args ("--body=" +:+ BodyPath o) in
      let args :=
        if (0 <? Z.of_nat (length (FilePaths o)))%Z
        then fold_left (fun (args : list string) path => args ++ ["--file=" +:+ path])
                       (FilePaths o) args
        else args in
      fold_left (fun (args : list string) '(flag, use) => append_if use args flag)
                (Go.range r (boolFlags o)) args
  | _ => args
  end.

Definition datasetSaveCmd (r : Go.MapRange) (streams : ioes.IOStreams) (job : Job) : exec.Cmd :=
  exec.with_streams (exec.Command "qri" (datasetSaveArgs r job)) streams.

Definition shellScriptCmd (streams : ioes.IOStreams) (job : Job) : exec.Cmd :=
  exec.with_streams (exec.Command (Name job) []) streams.

(** [JobToCmd]: [None] is the nil command. *)
Definition JobToCmd (r : Go.MapRange) (streams : ioes.IOStreams) (job : Job) : option exec.Cmd :=
  if String.eqb (Type_ job) JTDataset then Some (datasetSaveCmd r streams job)
  else if String.eqb (Type_ job) JTShellScript then Some (shellScriptCmd streams job)
  else None.


(** [PossibleShellScript], on a platform with or without the backslash
    as a separator. *)
Definition PossibleShellScript (windows : bool) (path : string) : bool :=
  String.eqb (Go.Ext windows path) ".sh".

(** *** Running a job *)

(** [processJobError]: [errOut] is [None] for a nil buffer, else the text
    the buffer holds. *)
Definition processJobError (job : Job) (errOut : option string) (err : Go.error) : Go.error :=
  match err with
  | None => None
  | Some _ =>
      match String.eqb (Type_ job) JTDataset, errOut with
      | true, Some text =>
          if Go.Contains text "no changes to save"
          then Go.Errorf "no changes to save"
          else err
      | _, _ => err
      end
  end.

(** What the service does to the world outside the package, in order. *)
Inductive Event : Type :=
| EvPing (addr : string)
| EvDaemonInstall (repoPath : string)
| EvMkdirAll (path : string)
| EvNewFlatbufferJobStore (path : string)
| EvNewMemJobStore
| EvNewCron
| EvGoServeHTTP (addr : string)
| EvCronStart
| EvRun (cmd : exec.Cmd).

(** Computations that append to the trace of events. *)
Definition M (A : Type) : Type := list Event -> A * list Event.

Definition ret {A} (a : A) : M A := fun tr => (a, tr).

Definition bind {A B} (m : M A) (k : A -> M B) : M B :=
  fun tr => let '(a, tr') := m tr in k a tr'.

Definition emit (e : Event) : M unit := fun tr => (tt, tr ++ [e]).

Definition call {A} (e : Event) (result : A) : M A :=
  bind (emit e) (fun _ => ret result).

Definition exec_M {A} (m : M A) : A * list Event := m [].

Declare Scope go_scope.
Delimit Scope go_scope with go.
Notation "x <- m ;; k" := (bind m (fun x => k))
  (at level 100, m at next level, right associativity) : go_scope.
Notation "m ;;; k" := (bind m (fun _ => k))
  (at level 100, right associativity) : go_scope.

(** Modelled from the spec: the part of [config.Update] the service
    reads, its store type and its address. *)
Record Update : Type := {
  UpdateType : string;
  Address : string
}.

(** The part of [dataset.Dataset] that [DatasetToJob] reads; [Meta] and
    [Commit] are pointers, [None] when nil. *)
Record Meta : Type := { AccrualPeriodicity : string }.
Record Commit : Type := { Timestamp : Go.Time }.
Record Dataset : Type := {
  Peername : string;
  DsName : string;
  DsMeta : option Meta;
  DsCommit : option Commit
}.

(** A call either returns, or panics on a nil pointer dereference. *)
Inductive outcome (A : Type) : Type :=
| Returned (a : A)
| Panicked.
Arguments Returned {A} a.
Arguments Panicked {A}.

(** What lies outside the package: the Go runtime's choice of map
    iteration order, the operating system, the HTTP probe of the cron
    client, the cron service, the platform's daemon installer, and the
    library functions [config.DefaultUpdate],
    [iso8601.ParseRepeatingInterval] and the [Validate] method of [cron.Job]. *)
Record Deps : Type := {
  map_range : Go.MapRange;
  filepath_Join : string -> string -> string;
  os_MkdirAll : string -> Go.error;
  http_Ping : string -> Go.error;
  daemonInstall : string -> Go.error;
  cron_Start : Go.error;
  cmd_Run : exec.Cmd -> string * Go.error;
  DefaultUpdate : Update;
  ParseRepeatingInterval : string -> RepeatingInterval * Go.error;
  Validate : Job -> Go.error
}.

Definition RepoDirName : string := "update".

Definition zero_interval : RepeatingInterval :=
  {| Repititions := 0; IntervalStart := Go.zero_Time;
     IntervalEnd := Go.zero_Time; IntervalDuration := 0 |}.

(** [&cron.Job{Name: ..., Periodicity: ..., Type: ..., PrevRunStart: ...}]:
    every other field has its zero value. *)
Definition new_Job (name : string) (p : RepeatingInterval) (t : JobType)
           (prev : Go.Time) : Job :=
  {| Name := name; Alias := ""; Type_ := t; Periodicity := p;
     PrevRunStart := prev; RunNumber := 0; RunStart := Go.zero_Time;
     RunStop := Go.zero_Time; RunError := ""; LogFilePath := "";
     Options_ := NoOptions; RepoPath := "" |}.

Definition set_Options (job : Job) (o : Options) : Job :=
  {| Name := Name job; Alias := Alias job; Type_ := Type_ job;
     Periodicity := Periodicity job; PrevRunStart := PrevRunStart job;
     RunNumber := RunNumber job; RunStart := RunStart job;
     RunStop := RunStop job; RunError := RunError job;
     LogFilePath := LogFilePath job; Options_ := o; RepoPath := RepoPath job |}.

Section WithDeps.
Variable deps : Deps.
Local Open Scope go_scope.

(** What the capture buffer receives when [text] is written to [w]. *)
Fixpoint captured (w : ioes.Writer) (text : string) : string :=
  match w with
  | ioes.Sink _ => ""
  | ioes.Buffer => text
  | ioes.MultiWriter w1 w2 => captured w1 text +:+ captured w2 text
  end.

(** [cmd.Run()]: the child writes to the command's standard error and
    exits; the result is the buffer's content afterwards and the error. *)
Definition Run (cmd : exec.Cmd) : M (string * Go.error) :=
  let '(written, err) := cmd_Run deps cmd in
  let buffered :=
    match exec.Stderr cmd with
    | Some w => captured w written
    | None => ""
    end in
  call (EvRun cmd) (buffered, err).

(** The function returned by [Factory]. *)
Definition Factory (streams : ioes.IOStreams) (job : Job) : M Go.error :=
  let isDataset := String.eqb (Type_ job) JTDataset in
  let errBuf : option string := if isDataset then Some "" else None in
  let streams :=
    if isDataset
    then ioes.NewIOStreams (ioes.In streams) (ioes.Out streams)
           (ioes.MultiWriter (ioes.ErrOut streams) ioes.Buffer)
    else streams in
  match JobToCmd (map_range deps) streams job with
  | None => ret (Go.Errorf ("unrecognized update type: " +:+ Type_ job))
  | Some cmd =>
      res <- Run cmd ;;
      let '(buffered, err) := res in
      let errBuf := option_map (fun _ => buffered) errBuf in
      ret (processJobError job errBuf err)
  end.

(** *** Starting the service *)

Definition Path (repoPath : string) : M (string * Go.error) :=
  let path := filepath_Join deps repoPath RepoDirName in
  err <- call (EvMkdirAll path) (os_MkdirAll deps path) ;;
  ret (path, err).

Definition start (repoPath : string) (updateCfg : Update) : M Go.error :=
  res <- Path repoPath ;;
  let '(path, err) := res in
  match err with
  | Some _ => ret err
  | None =>
      let serve : M Go.error :=
        (emit EvNewCron ;;;
         emit (EvGoServeHTTP (Address updateCfg)) ;;;
         call EvCronStart (cron_Start deps)) in
      if String.eqb (UpdateType updateCfg) "fs" then
        (emit (EvNewFlatbufferJobStore (filepath_Join deps path "jobs.qfb")) ;;;
         emit (EvNewFlatbufferJobStore (filepath_Join deps path "logs.qfb")) ;;;
         serve)
      else if String.eqb (UpdateType updateCfg) "mem" then
        (emit EvNewMemJobStore ;;; emit EvNewMemJobStore ;;; serve)
      else ret (Go.Errorf ("unknown cron type: " +:+ UpdateType updateCfg))
  end.

Definition Start (repoPath : string) (updateCfg : option Update)
           (daemonize : bool) : M Go.error :=
  let updateCfg :=
    match updateCfg with
    | None => DefaultUpdate deps
    | Some c => c
    end in
  err <- call (EvPing (Address updateCfg)) (http_Ping deps (Address updateCfg)) ;;
  match err with
  | None => ret (Go.Errorf "service already running")
  | Some _ =>
      if daemonize
      then call (EvDaemonInstall repoPath) (daemonInstall deps repoPath)
      else start repoPath updateCfg
  end.

(** *** Job constructors *)

Definition DatasetToJob (ds : Dataset) (periodicity : string)
           (opts : option DatasetOptions) : outcome (option Job * Go.error) :=
  let periodicity :=
    match String.eqb periodicity "", DsMeta ds with
    | true, Some m =>
        if nonempty (AccrualPeriodicity m) then AccrualPeriodicity m else periodicity
    | _, _ => periodicity
    end in
  if String.eqb periodicity "" then
    Returned (None, Go.Errorf "scheduling dataset updates requires a meta component with accrualPeriodicity set")
  else
    let '(p, err) := ParseRepeatingInterval deps periodicity in
    match err with
    | Some _ => Returned (None, err)
    | None =>
        match DsCommit ds with
        | None => Panicked
        | Some c =>
            let job := new_Job (Peername ds +:+ "/" +:+ DsName ds) p JTDataset (Timestamp c) in
            let job :=
              match opts with
              | Some o => set_Options job (OfDataset o)
              | None => job
              end in
            Returned (Some job, Validate deps job)
        end
    end.

Definition ShellScriptToJob (path : string) (periodicity : string)
           (opts : option ShellScriptOptions) : option Job * Go.error :=
  let '(p, err) := ParseRepeatingInterval deps periodicity in
  match err with
  | Some _ => (None, err)
  | None =>
      let job := new_Job path p JTShellScript Go.zero_Time in
      let job :=
        match opts with
        | Some o => set_Options job (OfShellScript o)
        | None => job
        end in
      (Some job, Validate deps job)
  end.

End WithDeps.

End update.

(** ** The flatbuffer IDL files *)

Module fbs.

Inductive ty : Type :=
| TString
| TBool
| TByte
| TLong
| TVector (elem : ty)
| TNamed (name : string).

Record field : Type := { fname : string; ftype : ty }.

Inductive decl : Type :=
| Enum (name : string) (base : ty) (members : list (string * option Z))
| Union (name : string) (members : list string)
| Table (name : string) (fields : list field).

Record schema : Type := {
  namespace : string;
  decls : list decl;
  file_identifier : string;
  file_extension : string;
  root_type : string
}.










End fbs.

Module cron_fbs.
Import fbs.

Definition StringMapVal : decl :=
  Table "StringMapVal"
    [ {| fname := "key"; ftype := TString |};
      {| fname := "val"; ftype := TString |} ].

Definition JobType : decl :=
  Enum "JobType" TByte [("unknown", Some 0%Z); ("dataset", None); ("shell", Some 2%Z)].

Definition Options : decl :=
  Union "Options" ["DatasetOptions"; "ShellScriptOptions"].

Definition DatasetOptions : decl :=
  Table "DatasetOptions"
    [ {| fname := "title"; ftype := TString |};
      {| fname := "message"; ftype := TString |};
      {| fname := "bodyPath"; ftype := TString |};
      {| fname := "filePaths"; ftype := TVector TString |};
      {| fname := "recall"; ftype := TString |};
      {| fname := "publish"; ftype := TBool |};
      {| fname := "strict"; ftype := TBool |};
      {| fname := "force"; ftype := TBool |};
      {| fname := "convertFormatToPrev"; ftype := TBool |};
      {| fname := "shouldRender"; ftype := TBool |};
      {| fname := "config"; ftype := TVector (TNamed "StringMapVal") |};
      {| fname := "secrets"; ftype := TVector (TNamed "StringMapVal") |} ].

Definition ShellScriptOptions : decl := Table "ShellScriptOptions" [].

Definition Job : decl :=
  Table "Job"
    [ {| fname := "name"; ftype := TString |};
      {| fname := "alias"; ftype := TString |};
      {| fname := "type"; ftype := TNamed "JobType" |};
      {| fname := "periodicity"; ftype := TString |};
      {| fname := "prevRunStart"; ftype := TString |};
      {| fname := "runNumber"; ftype := TLong |};
      {| fname := "runStart"; ftype := TString |};
      {| fname := "runStop"; ftype := TString |};
      {| fname := "runError"; ftype := TString |};
      {| fname := "logFilePath"; ftype := TString |};
      {| fname := "options"; ftype := TNamed "Options" |};
      {| fname := "repoPath"; ftype := TString |} ].

Definition Jobs : decl :=
  Table "Jobs" [ {| fname := "list"; ftype := TVector (TNamed "Job") |} ].

Definition Schema : schema :=
  {| namespace := "cron_fbs";
     decls := [JobType; StringMapVal; Options; DatasetOptions;
               ShellScriptOptions; Job; Jobs];
     file_identifier := "QFBF";
     file_extension := "qfb";
     root_type := "Jobs" |}.

End cron_fbs.

Module repo_fbs.
Import fbs.

Definition DatasetRef : decl :=
  Table "DatasetRef"
    [ {| fname := "peername"; ftype := TString |};
      {| fname := "profileID"; ftype := TString |};
      {| fname := "name"; ftype := TString |};
      {| fname := "path"; ftype := TString |};
      {| fname := "fsiPath"; ftype := TString |};
      {| fname := "published"; ftype := TBool |} ].

Definition Reflist : decl :=
  Table "Reflist" [ {| fname := "refs"; ftype := TVector (TNamed "DatasetRef") |} ].

Definition Schema : schema :=
  {| namespace := "repo_fbs";
     decls := [DatasetRef; Reflist];
     file_identifier := "QFBF";
     file_extension := "qfb";
     root_type := "Reflist" |}.

End repo_fbs.

(** ** Package p2p: announcing a connection *)

Module p2p.

(** Modelled from the spec: the part of a [Message] that
    [handleConnected] reads, its identifier and its body. *)
Record Message : Type := { MsgID : string; Body : string }.

Record pinfoPod : Type := { ID : string; Addrs : list string }.

(** A multiaddress ([ma.Multiaddr]) and a peer identifier ([peer.ID]),
    as opaque texts. *)
Definition Multiaddr : Type := string.
Definition PeerID : Type := string.

(** [pstore.PeerInfo]. *)
Record PeerInfo : Type := { PeerInfoID : PeerID; PeerInfoAddrs : list Multiaddr }.

Definition zero_PeerInfo : PeerInfo := {| PeerInfoID := ""; PeerInfoAddrs := [] |}.

(** What lies outside the file: the decoders [peer.IDB58Decode],
    [ma.NewMultiaddr] and [json.Unmarshal] into a [pinfoPod], and the
    node's [RequestProfile], of which only the error is used. *)
Record Deps : Type := {
  IDB58Decode : string -> PeerID * Go.error;
  NewMultiaddr : string -> Multiaddr * Go.error;
  json_Unmarshal : string -> pinfoPod * Go.error;
  RequestProfile : PeerID -> Go.error
}.

(** What the handler does to the node, in order: addresses added to the
    peer store (with the temporary time to live), a profile request, and
    the goroutine that forgets a message a minute later. *)
Inductive Event : Type :=
| EvAddAddrs (id : PeerID) (addrs : list Multiaddr)
| EvRequestProfile (id : PeerID)
| EvGoForgetAfterMinute (msgID : string).

Section WithDeps.
Variable deps : Deps.

(** The loop of [Decode] over the remaining addresses. *)
Fixpoint decodeAddrs (addrs : list string) (pi : PeerInfo) : PeerInfo * Go.error :=
  match addrs with
  | [] => (pi, None)
  | mstr :: rest =>
      let '(maddr, err) := NewMultiaddr deps mstr in
      match err with
      | Some _ => (pi, err)
      | None =>
          decodeAddrs rest {| PeerInfoID := PeerInfoID pi;
                              PeerInfoAddrs := PeerInfoAddrs pi ++ [maddr] |}
      end
  end.

Definition Decode (pod : pinfoPod) : PeerInfo * Go.error :=
  let pi := zero_PeerInfo in
  let '(id, err) := IDB58Decode deps (ID pod) in
  match err with
  | Some _ => (pi, err)
  | None =>
      decodeAddrs (Addrs pod) {| PeerInfoID := id; PeerInfoAddrs := PeerInfoAddrs pi |}
  end.

(** [handleConnected], on the node's [msgState] map: the result is
    [hangup], the map afterwards and what was done. *)
Definition handleConnected (msgState : gmap string bool) (msg : Message)
  : bool * gmap string bool * list Event :=
  let hangup := false in
  match msgState !! MsgID msg with
  | Some _ => (hangup, msgState, [])
  | None =>
      let '(pip, err) := json_Unmarshal deps (Body msg) in
      match err with
      | Some _ => (hangup, msgState, [])
      | None =>
          let '(pinfo, err) := Decode pip in
          match err with
          | Some _ => (hangup, msgState, [])
          | None =>
              let added := EvAddAddrs (PeerInfoID pinfo) (PeerInfoAddrs pinfo) in
              let requested := EvRequestProfile (PeerInfoID pinfo) in
              match RequestProfile deps (PeerInfoID pinfo) with
              | Some _ => (hangup, msgState, [added; requested])
              | None =>
                  (hangup, <[MsgID msg := true]> msgState,
                   [added; requested; EvGoForgetAfterMinute (MsgID msg)])
              end
          end
      end
  end.

End WithDeps.

End p2p.

(** ** Vocabulary of the statements *)

Import cron update.

(** [--flag=value], present exactly when the value is non-empty. *)
Definition opt_flag (flag value : string) : list string :=
  if nonempty value then [flag +:+ value] else [].

(** A bare flag, present exactly when [b] holds. *)
Definition bool_flag (flag : string) (b : bool) : list string :=
  if b then [flag] else [].

(** The arguments of a dataset job that come in a fixed order. *)
Definition fixed_args (job : Job) : list string :=
  ["save"; Name job] ++ opt_flag "--repo=" (RepoPath job).

Definition option_args (o : DatasetOptions) : list string :=
  opt_flag "--title=" (Title o) ++ opt_flag "--message=" (Message o) ++
  opt_flag "--recall=" (Recall o) ++ opt_flag "--body=" (BodyPath o) ++
  map (fun path => "--file=" +:+ path) (FilePaths o).

(** The bare flags of a dataset job, in the order of the map literal. *)
Definition bool_args (o : DatasetOptions) : list string :=
  bool_flag "--publish" (Publish o) ++ bool_flag "--strict" (Strict o) ++
  bool_flag "--force" (Force o) ++
  bool_flag "--keep-format" (ConvertFormatToPrev o) ++
  bool_flag "--no-render" (negb (ShouldRender o)).

(** The flags appended by the loop over [boolFlags], in the order [r]. *)
Definition ranged_flags (r : Go.MapRange) (o : DatasetOptions) : list string :=
  map fst (filter (fun kv : string * bool => snd kv = true) (Go.range r (boolFlags o))).

(** Every bare flag among [args] has its backing field set. *)
Definition flags_backed_by_true_fields (args : list string) (o : DatasetOptions) : Prop :=
  (In "--publish" args -> Publish o = true) /\
  (In "--strict" args -> Strict o = true) /\
  (In "--force" args -> Force o = true) /\
  (In "--keep-format" args -> ConvertFormatToPrev o = true) /\
  (In "--no-render" args -> ShouldRender o = true).

(** The trailing arguments of a command are those after its name. *)
Definition arguments (cmd : exec.Cmd) : list string := tl (exec.Args cmd).

(** The error a run reports when there was nothing to save. *)
Definition NoChanges : Go.error := Go.Errorf "no changes to save".

(** The streams [Factory] hands to a dataset command. *)
Definition teed (streams : ioes.IOStreams) : ioes.IOStreams :=
  ioes.NewIOStreams (ioes.In streams) (ioes.Out streams)
    (ioes.MultiWriter (ioes.ErrOut streams) ioes.Buffer).

(** The options [o] with other configuration and secrets. *)
Definition with_config (o : DatasetOptions) (config secrets : list (string * string))
  : DatasetOptions :=
  {| Title := Title o; Message := Message o; Recall := Recall o;
     BodyPath := BodyPath o; FilePaths := FilePaths o; Publish := Publish o;
     Strict := Strict o; Force := Force o;
     ConvertFormatToPrev := ConvertFormatToPrev o;
     ShouldRender := ShouldRender o; Config := config; Secrets := secrets |}.

(** The dataset [ds] with another meta component. *)
Definition with_Meta (ds : Dataset) (m : option Meta) : Dataset :=
  {| Peername := Peername ds; DsName := DsName ds; DsMeta := m;
     DsCommit := DsCommit ds |}.

(** The recurrence expression [DatasetToJob] goes by: its argument, or
    failing that the accrual periodicity of the meta component, if any. *)
Definition recurrence_in_force (ds : Dataset) (periodicity : string) : string :=
  if nonempty periodicity then periodicity
  else match DsMeta ds with
       | Some m => AccrualPeriodicity m
       | None => ""
       end.

(** The events that create a job store or a log store. *)
Definition creates_store (e : Event) : bool :=
  match e with
  | EvNewFlatbufferJobStore _ | EvNewMemJobStore => true
  | _ => false
  end.

(** The commands run in a trace. *)
Definition commands_run (tr : list Event) : list exec.Cmd :=
  omap (fun e => match e with EvRun cmd => Some cmd | _ => None end) tr.

(** The multiaddress an address text parses to, and whether it parses. *)
Definition parsed (deps : p2p.Deps) (mstr : string) : p2p.Multiaddr :=
  fst (p2p.NewMultiaddr deps mstr).

Definition parses (deps : p2p.Deps) (mstr : string) : Prop :=
  snd (p2p.NewMultiaddr deps mstr) = None.

(** The peer announced by a message, as far as it can be decoded. *)
Definition announced (deps : p2p.Deps) (msg : p2p.Message) : p2p.PeerInfo :=
  fst (p2p.Decode deps (fst (p2p.json_Unmarshal deps (p2p.Body msg)))).

(** A message is accepted when its body unmarshals, the pod decodes and
    the profile request succeeds. *)
Definition accepted (deps : p2p.Deps) (msg : p2p.Message) : Prop :=
  snd (p2p.json_Unmarshal deps (p2p.Body msg)) = None /\
  snd (p2p.Decode deps (fst (p2p.json_Unmarshal deps (p2p.Body msg)))) = None /\
  p2p.RequestProfile deps (p2p.PeerInfoID (announced deps msg)) = None.

(** ** Sample values *)

Module Sample.

Definition no_options : DatasetOptions :=
  {| Title := ""; Message := ""; Recall := ""; BodyPath := "";
     FilePaths := []; Publish := false; Strict := false; Force := false;
     ConvertFormatToPrev := false; ShouldRender := false;
     Config := []; Secrets := [] |}.

Definition full_options : DatasetOptions :=
  {| Title := "title"; Message := "msg"; Recall := ""; BodyPath := "body.csv";
     FilePaths := ["meta.json"; "structure.json"];
     Publish := true; Strict := true; Force := false;
     ConvertFormatToPrev := false; ShouldRender := true;
     Config := []; Secrets := [] |}.

Definition dataset_job (o : Options) : Job :=
  set_Options (new_Job "me/foo" zero_interval JTDataset Go.zero_Time) o.

Definition shell_job : Job :=
  new_Job "/bin/true" zero_interval JTShellScript Go.zero_Time.

Definition other_job : Job :=
  new_Job "x" zero_interval "unknown" Go.zero_Time.

Definition streams : ioes.IOStreams :=
  ioes.NewIOStreams "stdin" (ioes.Sink "stdout") (ioes.Sink "stderr").

Definition reversed : Go.MapRange := @rev (string * bool).
Definition stored_order : Go.MapRange := fun kvs => kvs.

Definition every_minute : RepeatingInterval :=
  {| Repititions := -1; IntervalStart := Go.zero_Time;
     IntervalEnd := Go.zero_Time; IntervalDuration := 60 |}.

(** A parser that knows a single expression. *)
Definition parse (s : string) : RepeatingInterval * Go.error :=
  if String.eqb s "R/PT1M" then (every_minute, None)
  else (zero_interval, Go.Errorf "invalid repeating interval").

(** A world in which no service answers, every command fails and reports
    that there is nothing to save. *)
Definition deps (ping : Go.error) : Deps :=
  {| map_range := stored_order;
     filepath_Join := fun a b => a +:+ "/" +:+ b;
     os_MkdirAll := fun _ => None;
     http_Ping := fun _ => ping;
     daemonInstall := fun _ => None;
     cron_Start := None;
     cmd_Run := fun _ => ("error: no changes to save", Go.Errorf "exit status 1");
     DefaultUpdate := {| UpdateType := "fs"; Address := "127.0.0.1:2506" |};
     ParseRepeatingInterval := parse;
     Validate := fun _ => None |}.

Definition dataset : Dataset :=
  {| Peername := "me"; DsName := "foo";
     DsMeta := Some {| AccrualPeriodicity := "R/PT1M" |};
     DsCommit := Some {| Timestamp := 1000%Z |} |}.


Definition p2p_deps (profile : Go.error) : p2p.Deps :=
  {| p2p.IDB58Decode := fun s =>
       if String.eqb s "" then ("", Go.Errorf "empty peer id") else (s, None);
     p2p.NewMultiaddr := fun s =>
       if Go.HasPrefix s "/" then (s, None) else ("", Go.Errorf "invalid multiaddr");
     p2p.json_Unmarshal := fun body =>
       if Go.HasPrefix body "{"
       then ({| p2p.ID := "QmPeer"; p2p.Addrs := ["/ip4/1.2.3.4/tcp/4001"] |}, None)
       else ({| p2p.ID := ""; p2p.Addrs := [] |}, Go.Errorf "invalid character");
     p2p.RequestProfile := fun _ => profile |}.

Definition pod : p2p.pinfoPod :=
  {| p2p.ID := "QmPeer";
     p2p.Addrs := ["/ip4/1.2.3.4/tcp/4001"; "bad"; "/ip4/5.6.7.8/tcp/4001"] |}.

Definition message : p2p.Message := {| p2p.MsgID := "m1"; p2p.Body := "{...}" |}.

End Sample.

(** ** Helper lemmas *)

Section ListHelpers.

Lemma append_if_app cond args arg :
  append_if cond args arg = args ++ bool_flag arg cond.
Proof. destruct cond; simpl; [reflexivity | by rewrite app_nil_r]. Qed.

Lemma append_if_opt_flag args flag value :
  append_if (nonempty value) args (flag +:+ value) = args ++ opt_flag flag value.
Proof. unfold opt_flag. destruct (nonempty value); simpl; [reflexivity | by rewrite app_nil_r]. Qed.

(** The loop over [FilePaths] appends one entry per path, in order. *)
Lemma fold_left_files paths : forall args,
  fold_left (fun (args : list string) path => args ++ ["--file=" +:+ path]) paths args
  = args ++ map (fun path => "--file=" +:+ path) paths.
Proof.
  induction paths as [|p paths IH]; intros args; simpl.
  - by rewrite app_nil_r.
  - rewrite IH, <- app_assoc. reflexivity.
Qed.

(** The loop over the map entries appends the keys whose value is true. *)
Lemma fold_left_flags (kvs : list (string * bool)) : forall args,
  fold_left (fun (args : list string) '(flag, use) => append_if use args flag) kvs args
  = args ++ map fst (filter (fun kv => snd kv = true) kvs).
Proof.
  induction kvs as [|[flag use] kvs IH]; intros args; simpl.
  - by rewrite app_nil_r.
  - rewrite IH, append_if_app, <- app_assoc. f_equal.
    rewrite filter_cons. destruct use; reflexivity.
Qed.

End ListHelpers.

Section CommandHelpers.

(** The entries of the [boolFlags] map: the five of the literal. *)
Lemma boolFlags_entries o :
  map_to_list (boolFlags o) ≡ₚ
    [("--publish", Publish o); ("--strict", Strict o); ("--force", Force o);
     ("--keep-format", ConvertFormatToPrev o);
     ("--no-render", negb (ShouldRender o))].
Proof.
  unfold boolFlags.
  repeat (rewrite map_to_list_insert by (by simplify_map_eq);
          apply Permutation_cons; [reflexivity |]).
  by rewrite map_to_list_empty.
Qed.

Lemma flags_of_literal o :
  map fst (filter (fun kv : string * bool => snd kv = true)
    [("--publish", Publish o); ("--strict", Strict o); ("--force", Force o);
     ("--keep-format", ConvertFormatToPrev o);
     ("--no-render", negb (ShouldRender o))])
  = bool_args o.
Proof.
  unfold bool_args.
  destruct (Publish o), (Strict o), (Force o), (ConvertFormatToPrev o),
    (ShouldRender o); reflexivity.
Qed.

(** Whatever the order, the loop appends the flags of [bool_args]. *)
Lemma ranged_flags_perm r o :
  Go.MapRange_ok r -> ranged_flags r o ≡ₚ bool_args o.
Proof.
  intros Hr. unfold ranged_flags, Go.range.
  rewrite <- flags_of_literal.
  apply fmap_Permutation, filter_Permutation.
  rewrite (Hr _). apply boolFlags_entries.
Qed.

(** The shape of the argument list built by [datasetSaveCmd]. *)
Lemma datasetSaveArgs_with_options r job o :
  Options_ job = OfDataset o ->
  datasetSaveArgs r job = fixed_args job ++ option_args o ++ ranged_flags r o.
Proof.
  intros Ho. unfold datasetSaveArgs, fixed_args, option_args, ranged_flags.
  rewrite Ho, fold_left_flags.
  assert (Hfiles : forall args : list string,
    (if (0 <? Z.of_nat (length (FilePaths o)))%Z
     then fold_left (fun (args : list string) path => args ++ ["--file=" +:+ path])
            (FilePaths o) args
     else args) = args ++ map (fun path => "--file=" +:+ path) (FilePaths o)).
  { intros args. destruct (FilePaths o) as [|p ps] eqn:E.
    - simpl. by rewrite app_nil_r.
    - replace (0 <? Z.of_nat (length (p :: ps)))%Z with true
        by (symmetry; apply Z.ltb_lt; simpl; lia).
      apply fold_left_files. }
  rewrite Hfiles, !append_if_opt_flag.
  rewrite <- !app_assoc. reflexivity.
Qed.

Lemma datasetSaveArgs_without_options r job :
  (forall o, Options_ job <> OfDataset o) ->
  datasetSaveArgs r job = fixed_args job.
Proof.
  intros Hno. unfold datasetSaveArgs, fixed_args.
  rewrite append_if_opt_flag.
  destruct (Options_ job) as [| o | o]; try reflexivity.
  exfalso. by apply (Hno o).
Qed.

Lemma JobToCmd_dataset r streams job :
  Type_ job = JTDataset ->
  JobToCmd r streams job = Some (datasetSaveCmd r streams job).
Proof. intros Ht. unfold JobToCmd. rewrite Ht. reflexivity. Qed.

Lemma JobToCmd_shell r streams job :
  Type_ job = JTShellScript ->
  JobToCmd r streams job = Some (shellScriptCmd streams job).
Proof. intros Ht. unfold JobToCmd. rewrite Ht. reflexivity. Qed.

Lemma JobToCmd_other r streams job :
  Type_ job <> JTDataset -> Type_ job <> JTShellScript ->
  JobToCmd r streams job = None.
Proof.
  intros Hd Hs. unfold JobToCmd.
  apply String.eqb_neq in Hd, Hs. rewrite Hd, Hs. reflexivity.
Qed.

Lemma bool_flag_Forall (P : string -> Prop) flag b :
  P flag -> Forall P (bool_flag flag b).
Proof. intros H. destruct b; simpl; auto. Qed.

Lemma stored_order_ok : Go.MapRange_ok Sample.stored_order.
Proof. intros kvs. reflexivity. Qed.

Lemma reversed_ok : Go.MapRange_ok Sample.reversed.
Proof. intros kvs. unfold Sample.reversed. by rewrite reverse_Permutation || apply Permutation_sym, Permutation_rev. Qed.

End CommandHelpers.

(** ** Command construction *)

Section CommandConstruction.

(** C1 (as amended).  For a Dataset job whose options are dataset
    options, the command runs "qri" with the arguments "save", the job
    name, [--repo=<path>] exactly when RepoPath is non-empty,
    [--title=], [--message=], [--recall=] and [--body=] each exactly when
    its field is non-empty, one [--file=<path>] per element of FilePaths,
    and then, in an order the map iteration picks, [--publish],
    [--strict], [--force] and [--keep-format] exactly when Publish,
    Strict, Force and ConvertFormatToPrev are true and [--no-render]
    exactly when ShouldRender is false; nothing else. *)
Theorem datasetSaveCmd_argument_contract r streams job o :
  Go.MapRange_ok r ->
  Type_ job = JTDataset ->
  Options_ job = OfDataset o ->
  exists cmd flags,
    JobToCmd r streams job = Some cmd /\
    exec.Path cmd = "qri" /\
    arguments cmd =
      ["save"; Name job] ++ opt_flag "--repo=" (RepoPath job) ++
      opt_flag "--title=" (Title o) ++ opt_flag "--message=" (Message o) ++
      opt_flag "--recall=" (Recall o) ++ opt_flag "--body=" (BodyPath o) ++
      map (fun path => "--file=" +:+ path) (FilePaths o) ++ flags /\
    flags ≡ₚ
      bool_flag "--publish" (Publish o) ++ bool_flag "--strict" (Strict o) ++
      bool_flag "--force" (Force o) ++
      bool_flag "--keep-format" (ConvertFormatToPrev o) ++
      bool_flag "--no-render" (negb (ShouldRender o)).
Proof.
  intros Hr Ht Ho.
  exists (datasetSaveCmd r streams job), (ranged_flags r o).
  split; [by apply JobToCmd_dataset |].
  split; [reflexivity |].
  split; [| by apply ranged_flags_perm].
  unfold arguments. simpl.
  rewrite (datasetSaveArgs_with_options r job o Ho).
  unfold fixed_args, option_args. rewrite <- !app_assoc. reflexivity.
Qed.

(** C9.  A Dataset job whose Options hold no dataset options (nil, or
    the options of a shell script) still gets its command: "save", the
    job name, and [--repo=<path>] when RepoPath is non-empty; no option
    flag. *)
Theorem datasetSaveCmd_ignores_foreign_options r streams job :
  Type_ job = JTDataset ->
  (forall o, Options_ job <> OfDataset o) ->
  exists cmd,
    JobToCmd r streams job = Some cmd /\
    exec.Path cmd = "qri" /\
    arguments cmd =
      ["save"; Name job] ++
      (if nonempty (RepoPath job) then ["--repo=" +:+ RepoPath job] else []).
Proof.
  intros Ht Hno. exists (datasetSaveCmd r streams job).
  split; [by apply JobToCmd_dataset |].
  split; [reflexivity |].
  unfold arguments. simpl.
  by rewrite datasetSaveArgs_without_options.
Qed.

(** C3 (as amended).  Two constructions from the same job agree on
    whether a command is produced, on the executable, on the streams and
    on every argument before the boolean flags, element for element; the
    boolean flags that follow are the same flags, up to their order. *)
Theorem JobToCmd_deterministic_up_to_flag_order r1 r2 streams job :
  Go.MapRange_ok r1 ->
  Go.MapRange_ok r2 ->
  match JobToCmd r1 streams job, JobToCmd r2 streams job with
  | Some c1, Some c2 =>
      exec.Path c1 = exec.Path c2 /\ exec.Env c1 = exec.Env c2 /\
      exec.Stdin c1 = exec.Stdin c2 /\ exec.Stdout c1 = exec.Stdout c2 /\
      exec.Stderr c1 = exec.Stderr c2 /\
      exists front flags1 flags2,
        exec.Args c1 = front ++ flags1 /\
        exec.Args c2 = front ++ flags2 /\
        flags1 ≡ₚ flags2 /\
        Forall (fun flag => In flag ["--publish"; "--strict"; "--force";
                                     "--keep-format"; "--no-render"]) flags1
  | None, None => True
  | _, _ => False
  end.
Proof.
  intros H1 H2. unfold JobToCmd.
  destruct (String.eqb (Type_ job) JTDataset).
  - repeat (split; [reflexivity |]).
    destruct (Options_ job) as [| o | o] eqn:Ho.
    + exists (exec.Args (datasetSaveCmd r1 streams job)), [], [].
      rewrite !app_nil_r. simpl.
      rewrite !datasetSaveArgs_without_options by (rewrite Ho; congruence).
      repeat split; constructor.
    + exists ("qri" :: fixed_args job ++ option_args o),
        (ranged_flags r1 o), (ranged_flags r2 o).
      simpl. rewrite !(datasetSaveArgs_with_options _ job o Ho), <- !app_assoc.
      repeat split.
      * by rewrite !ranged_flags_perm.
      * assert (Hall : Forall (fun flag => In flag ["--publish"; "--strict";
            "--force"; "--keep-format"; "--no-render"]) (bool_args o)).
        { unfold bool_args.
        repeat (apply Forall_app; split); apply bool_flag_Forall; simpl; auto 10. }
        rewrite (ranged_flags_perm r1 o H1). exact Hall.
    + exists (exec.Args (datasetSaveCmd r1 streams job)), [], [].
      rewrite !app_nil_r. simpl.
      rewrite !datasetSaveArgs_without_options by (rewrite Ho; congruence).
      repeat split; constructor.
  - destruct (String.eqb (Type_ job) JTShellScript); [| exact I].
    repeat (split; [reflexivity |]).
    exists (exec.Args (shellScriptCmd streams job)), [], [].
    rewrite !app_nil_r. repeat split; constructor.
Qed.

(** C7.  A ShellScript job runs the job's Name as the executable, with
    no argument after the command name, and with the environment left
    unset, so that the child has the environment of the caller. *)
Theorem shellScriptCmd_runs_name_alone r streams job :
  Type_ job = JTShellScript ->
  exists cmd,
    JobToCmd r streams job = Some cmd /\
    exec.Path cmd = Name job /\
    exec.Args cmd = [Name job] /\
    arguments cmd = [] /\
    exec.Env cmd = None.
Proof.
  intros Ht. exists (shellScriptCmd streams job).
  split; [by apply JobToCmd_shell |]. repeat split.
Qed.

End CommandConstruction.

(** ** Running a job *)

Section RunningJobs.

Lemma HasPrefix_app s p : Go.HasPrefix (p +:+ s) p = true.
Proof.
  induction p as [|c p IH]; simpl; [reflexivity |].
  by rewrite Ascii.eqb_refl.
Qed.

Lemma HasPrefix_inv s p :
  Go.HasPrefix s p = true -> exists post, s = p +:+ post.
Proof.
  revert s. induction p as [|c p IH]; intros s H; simpl in *.
  - by exists s.
  - destruct s as [|d s]; [discriminate |].
    destruct (Ascii.eqb c d) eqn:E; [| discriminate].
    apply Ascii.eqb_eq in E. subst d.
    destruct (IH s H) as [post ->]. by exists post.
Qed.

(** [Go.Contains] decides whether the phrase occurs in the text. *)
Lemma Contains_iff s sub :
  Go.Contains s sub = true <-> exists pre post, s = pre +:+ sub +:+ post.
Proof.
  split.
  - induction s as [|c s IH]; simpl.
    + destruct (Go.HasPrefix "" sub) eqn:E; [| discriminate].
      intros _. destruct (HasPrefix_inv _ _ E) as [post ->].
      by exists "", post.
    + destruct (Go.HasPrefix (String c s) sub) eqn:E.
      * intros _. destruct (HasPrefix_inv _ _ E) as [post Hs].
        exists "", post. exact Hs.
      * intros H. destruct (IH H) as (pre & post & ->).
        by exists (String c pre), post.
  - intros (pre & post & ->).
    induction pre as [|c pre IH]; simpl.
    + assert (H := HasPrefix_app post sub).
      destruct post, sub; simpl in *; try rewrite H; reflexivity.
    + rewrite IH. by destruct (Go.HasPrefix _ _).
Qed.

(** What the run function does for a Dataset job. *)
Lemma Factory_classifies_dataset_run deps streams job :
  Type_ job = JTDataset ->
  let cmd := datasetSaveCmd (map_range deps) (teed streams) job in
  fst (exec_M (Factory deps streams job)) =
    processJobError job
      (Some (captured (ioes.MultiWriter (ioes.ErrOut streams) ioes.Buffer)
               (fst (cmd_Run deps cmd))))
      (snd (cmd_Run deps cmd)) /\
  snd (exec_M (Factory deps streams job)) = [EvRun cmd].
Proof.
  intros Ht. unfold exec_M, Factory. rewrite Ht.
  change (String.eqb JTDataset JTDataset) with true. cbv iota.
  fold (teed streams). rewrite JobToCmd_dataset by exact Ht.
  unfold bind, Run, call, bind, emit, ret.
  destruct (cmd_Run deps (datasetSaveCmd (map_range deps) (teed streams) job))
    as [written err]; split; reflexivity.
Qed.

(** What the run function does for a ShellScript job. *)
Lemma Factory_shell_run deps streams job :
  Type_ job = JTShellScript ->
  let cmd := shellScriptCmd streams job in
  fst (exec_M (Factory deps streams job)) = snd (cmd_Run deps cmd) /\
  snd (exec_M (Factory deps streams job)) = [EvRun cmd].
Proof.
  intros Ht. unfold exec_M, Factory. rewrite Ht.
  change (String.eqb JTShellScript JTDataset) with false. cbv iota.
  rewrite JobToCmd_shell by exact Ht.
  unfold bind, Run, call, bind, emit, ret, processJobError. rewrite Ht.
  destruct (cmd_Run deps (shellScriptCmd streams job)) as [written [e|]];
    split; reflexivity.
Qed.

(** C2.  For a Dataset job the command's standard error is teed into
    the capture buffer, and a failed run is reported as [NoChanges] when
    the captured text contains "no changes to save", and as the
    command's own error, unchanged, otherwise.  For a ShellScript job
    the command writes to the caller's error stream alone and its error
    is returned unchanged, whatever it wrote. *)
Theorem Factory_classifies_dataset_errors deps streams job :
  (Type_ job = JTDataset ->
   let cmd := datasetSaveCmd (map_range deps) (teed streams) job in
   let written := fst (cmd_Run deps cmd) in
   let err := snd (cmd_Run deps cmd) in
   let tee := ioes.MultiWriter (ioes.ErrOut streams) ioes.Buffer in
   let text := captured tee written in
   exec.Stderr cmd = Some tee /\
   exec_M (Factory deps streams job) =
     (match err with
      | None => None
      | Some _ => if Go.Contains text "no changes to save" then NoChanges else err
      end, [EvRun cmd])) /\
  (Type_ job = JTShellScript ->
   let cmd := shellScriptCmd streams job in
   exec.Stderr cmd = Some (ioes.ErrOut streams) /\
   exec_M (Factory deps streams job) = (snd (cmd_Run deps cmd), [EvRun cmd])).
Proof.
  split; intros Ht; unfold exec_M, Factory; rewrite Ht.
  - change (String.eqb JTDataset JTDataset) with true. cbv iota.
    fold (teed streams).
    rewrite JobToCmd_dataset by exact Ht.
    split; [reflexivity |].
    unfold bind, Run, call, bind, emit, ret, processJobError. rewrite Ht.
    change (String.eqb JTDataset JTDataset) with true.
    destruct (cmd_Run deps (datasetSaveCmd (map_range deps) (teed streams) job))
      as [written [e|]]; reflexivity.
  - change (String.eqb JTShellScript JTDataset) with false. cbv iota.
    rewrite JobToCmd_shell by exact Ht.
    split; [reflexivity |].
    unfold bind, Run, call, bind, emit, ret, processJobError. rewrite Ht.
    destruct (cmd_Run deps (shellScriptCmd streams job)) as [written [e|]];
      reflexivity.
Qed.

(** C6.  For a job that is neither a Dataset nor a ShellScript job,
    [JobToCmd] produces no command, and the run function fails with
    "unrecognized update type" and runs nothing. *)
Theorem unsupported_job_type_runs_nothing deps streams job :
  Type_ job <> JTDataset ->
  Type_ job <> JTShellScript ->
  (forall r streams', JobToCmd r streams' job = None) /\
  forall tr,
    Factory deps streams job tr =
      (Go.Errorf ("unrecognized update type: " +:+ Type_ job), tr).
Proof.
  intros Hd Hs. split.
  - intros r streams'. by apply JobToCmd_other.
  - intros tr. unfold Factory.
    apply String.eqb_neq in Hd as Hd'. rewrite Hd'.
    by rewrite JobToCmd_other.
Qed.

End RunningJobs.

(** ** Starting the service *)

Section Starting.

(** C5.  When the liveness probe of the configured address (that of the
    default configuration when none is given) answers, [Start] fails
    with "service already running": the probe is the only thing it did;
    no directory, job store, log store or cron service was created, no
    daemon installed, no server or scheduler started. *)
Theorem Start_refuses_when_already_running deps repoPath updateCfg daemonize tr :
  let cfg := default (DefaultUpdate deps) updateCfg in
  http_Ping deps (Address cfg) = None ->
  Start deps repoPath updateCfg daemonize tr =
    (Go.Errorf "service already running", tr ++ [EvPing (Address cfg)]).
Proof.
  intros cfg Hping. unfold Start, bind, call, bind, emit, ret.
  destruct updateCfg as [c|]; simpl in *; subst cfg; simpl in *;
    rewrite Hping; reflexivity.
Qed.

End Starting.

(** ** Job constructors *)

Section Constructors.

(** C4.  [DatasetToJob] returns an error and no job when there is no
    periodicity (empty argument, and a nil Meta or an empty accrual
    periodicity), and when the expression in force (the argument, or the
    accrual periodicity standing in for an empty argument) does not
    parse; [ShellScriptToJob] returns the parser's error and no job when
    its expression does not parse. *)
Theorem constructors_reject_bad_recurrence deps ds periodicity opts path sopts :
  (periodicity = "" ->
   (forall m, DsMeta ds = Some m -> AccrualPeriodicity m = "") ->
   exists msg, DatasetToJob deps ds periodicity opts = Returned (None, Some msg)) /\
  (forall expr msg,
     (periodicity <> "" /\ expr = periodicity) \/
     (periodicity = "" /\ expr <> "" /\
      exists m, DsMeta ds = Some m /\ AccrualPeriodicity m = expr) ->
     snd (ParseRepeatingInterval deps expr) = Some msg ->
     DatasetToJob deps ds periodicity opts = Returned (None, Some msg)) /\
  (forall msg,
     snd (ParseRepeatingInterval deps periodicity) = Some msg ->
     ShellScriptToJob deps path periodicity sopts = (None, Some msg)).
Proof.
  split; [| split].
  - intros -> Hmeta. unfold DatasetToJob. simpl.
    destruct (DsMeta ds) as [m|]; [| eauto].
    rewrite (Hmeta m eq_refl). simpl. eauto.
  - intros expr msg Hexpr Hparse. unfold DatasetToJob.
    destruct Hexpr as [[Hne ->] | (-> & Hne & m & Hm & <-)].
    + apply String.eqb_neq in Hne. rewrite Hne. cbv zeta iota. rewrite Hne.
      destruct (ParseRepeatingInterval deps periodicity) as [p e].
      simpl in Hparse. subst e. reflexivity.
    + rewrite Hm. simpl. unfold nonempty.
      apply String.eqb_neq in Hne. rewrite Hne. simpl. rewrite Hne.
      destruct (ParseRepeatingInterval deps (AccrualPeriodicity m)) as [p e].
      simpl in Hparse. subst e. reflexivity.
  - intros msg Hparse. unfold ShellScriptToJob.
    destruct (ParseRepeatingInterval deps periodicity) as [p e].
    simpl in Hparse. subst e. reflexivity.
Qed.

(** C10.  With an empty periodicity argument [DatasetToJob] behaves as
    if it had been given the dataset's Meta.AccrualPeriodicity; a job it
    constructs has that expression, parsed, as its Periodicity, the
    commit timestamp as its PrevRunStart, and "<Peername>/<Name>" as its
    Name; and it does construct one when the accrual periodicity is
    non-empty and parses and the dataset has a commit. *)
Theorem DatasetToJob_falls_back_to_accrual deps ds opts :
  (forall m, DsMeta ds = Some m ->
     DatasetToJob deps ds "" opts = DatasetToJob deps ds (AccrualPeriodicity m) opts) /\
  (forall job err,
     DatasetToJob deps ds "" opts = Returned (Some job, err) ->
     exists m c,
       DsMeta ds = Some m /\ DsCommit ds = Some c /\
       ParseRepeatingInterval deps (AccrualPeriodicity m) = (Periodicity job, None) /\
       PrevRunStart job = Timestamp c /\
       Name job = Peername ds +:+ "/" +:+ DsName ds) /\
  (forall m c p,
     DsMeta ds = Some m -> AccrualPeriodicity m <> "" ->
     ParseRepeatingInterval deps (AccrualPeriodicity m) = (p, None) ->
     DsCommit ds = Some c ->
     exists job,
       DatasetToJob deps ds "" opts = Returned (Some job, Validate deps job) /\
       Periodicity job = p /\
       PrevRunStart job = Timestamp c /\
       Name job = Peername ds +:+ "/" +:+ DsName ds /\
       Type_ job = JTDataset).
Proof.
  split; [| split].
  - intros m Hm. unfold DatasetToJob. rewrite Hm. simpl. unfold nonempty.
    destruct (String.eqb (AccrualPeriodicity m) "") eqn:E; simpl.
    + apply String.eqb_eq in E. rewrite E. reflexivity.
    + reflexivity.
  - intros job err H. unfold DatasetToJob in H. simpl in H.
    destruct (DsMeta ds) as [m|]; [| simpl in H; discriminate].
    unfold nonempty in H.
    destruct (String.eqb (AccrualPeriodicity m) "") eqn:E; simpl in H;
      [discriminate |].
    rewrite E in H.
    destruct (ParseRepeatingInterval deps (AccrualPeriodicity m)) as [p [e|]] eqn:Hp;
      [discriminate |].
    destruct (DsCommit ds) as [c|]; [| discriminate].
    exists m, c.
    destruct opts; inversion H; subst; repeat split; try reflexivity; exact Hp.
  - intros m c p Hm Hne Hparse Hc. unfold DatasetToJob. rewrite Hm, Hc. simpl.
    unfold nonempty. apply String.eqb_neq in Hne. rewrite Hne. simpl.
    rewrite Hne, Hparse.
    destruct opts; eexists; (split; [reflexivity |]); auto.
Qed.

End Constructors.

(** ** The store schema *)

Section StoreSchema.
Import fbs.

Lemma substring_skip (a b : string) n :
  substring (String.length a) n (a +:+ b) = substring 0 n b.
Proof. induction a as [|c a IH]; simpl; [reflexivity | exact IH]. Qed.


End StoreSchema.

(** ** Instances and counterexamples *)

Section Instances.
Import Sample.

(** A dataset job with a title, a message, a body, two files, published
    and strict, iterated in reverse. *)
Lemma datasetSaveCmd_argument_contract_witness :
  Go.MapRange_ok reversed /\
  exists cmd flags,
    JobToCmd reversed streams (dataset_job (OfDataset full_options)) = Some cmd /\
    exec.Path cmd = "qri" /\
    arguments cmd =
      ["save"; "me/foo"; "--title=title"; "--message=msg"; "--body=body.csv";
       "--file=meta.json"; "--file=structure.json"] ++ flags /\
    flags ≡ₚ ["--publish"; "--strict"].
Proof.
  split; [apply reversed_ok |].
  apply (datasetSaveCmd_argument_contract reversed streams
           (dataset_job (OfDataset full_options)) full_options);
    [apply reversed_ok | reflexivity | reflexivity].
Defined.

(** C1 as stated fails: with every boolean field false, [--no-render] is
    among the arguments. *)
Lemma no_render_flag_without_true_field :
  Go.MapRange_ok stored_order /\
  Type_ (dataset_job (OfDataset no_options)) = JTDataset /\
  JobToCmd stored_order streams (dataset_job (OfDataset no_options))
    = Some (datasetSaveCmd stored_order streams (dataset_job (OfDataset no_options))) /\
  arguments (datasetSaveCmd stored_order streams (dataset_job (OfDataset no_options)))
    = ["save"; "me/foo"; "--no-render"] /\
  ~ flags_backed_by_true_fields
      (arguments (datasetSaveCmd stored_order streams (dataset_job (OfDataset no_options))))
      no_options.
Proof.
  split; [apply stored_order_ok |].
  split; [reflexivity |]. split; [reflexivity |].
  assert (Hargs : arguments (datasetSaveCmd stored_order streams
                     (dataset_job (OfDataset no_options)))
                  = ["save"; "me/foo"; "--no-render"]) by (vm_compute; reflexivity).
  split; [exact Hargs |].
  rewrite Hargs. intros (_ & _ & _ & _ & H).
  assert (Hfalse : ShouldRender no_options = true) by (apply H; simpl; auto).
  discriminate Hfalse.
Qed.

Lemma datasetSaveCmd_ignores_foreign_options_witness :
  exists cmd,
    JobToCmd stored_order streams (dataset_job (OfShellScript Build_ShellScriptOptions)) = Some cmd /\
    exec.Path cmd = "qri" /\
    arguments cmd = ["save"; "me/foo"].
Proof.
  apply (datasetSaveCmd_ignores_foreign_options stored_order streams
           (dataset_job (OfShellScript Build_ShellScriptOptions)));
    [reflexivity | intros o; discriminate].
Defined.

Lemma JobToCmd_deterministic_up_to_flag_order_witness :
  Go.MapRange_ok stored_order /\ Go.MapRange_ok reversed /\
  exists front flags1 flags2,
    exec.Args (datasetSaveCmd stored_order streams (dataset_job (OfDataset full_options)))
      = front ++ flags1 /\
    exec.Args (datasetSaveCmd reversed streams (dataset_job (OfDataset full_options)))
      = front ++ flags2 /\
    flags1 ≡ₚ flags2.
Proof.
  split; [apply stored_order_ok |]. split; [apply reversed_ok |].
  destruct (JobToCmd_deterministic_up_to_flag_order stored_order reversed streams
              (dataset_job (OfDataset full_options)) stored_order_ok reversed_ok)
    as (_ & _ & _ & _ & _ & front & flags1 & flags2 & H1 & H2 & Hperm & _).
  exists front, flags1, flags2. auto.
Defined.

(** C3 as stated fails: a published, strict job gets its two flags in
    either order. *)
Lemma flag_order_depends_on_map_iteration :
  Go.MapRange_ok stored_order /\ Go.MapRange_ok reversed /\
  JobToCmd stored_order streams (dataset_job (OfDataset full_options))
    <> JobToCmd reversed streams (dataset_job (OfDataset full_options)) /\
  arguments (datasetSaveCmd stored_order streams (dataset_job (OfDataset full_options)))
    = ["save"; "me/foo"; "--title=title"; "--message=msg"; "--body=body.csv";
       "--file=meta.json"; "--file=structure.json"; "--strict"; "--publish"] /\
  arguments (datasetSaveCmd reversed streams (dataset_job (OfDataset full_options)))
    = ["save"; "me/foo"; "--title=title"; "--message=msg"; "--body=body.csv";
       "--file=meta.json"; "--file=structure.json"; "--publish"; "--strict"].
Proof.
  split; [apply stored_order_ok |]. split; [apply reversed_ok |].
  split; [| split; vm_compute; reflexivity].
  intros H. vm_compute in H. discriminate H.
Qed.

Lemma shellScriptCmd_runs_name_alone_witness :
  exists cmd,
    JobToCmd stored_order streams shell_job = Some cmd /\
    exec.Path cmd = "/bin/true" /\
    exec.Args cmd = ["/bin/true"] /\
    arguments cmd = [] /\
    exec.Env cmd = None.
Proof.
  apply (shellScriptCmd_runs_name_alone stored_order streams shell_job).
  reflexivity.
Defined.

Lemma unsupported_job_type_runs_nothing_witness :
  JobToCmd stored_order streams other_job = None /\
  exec_M (Factory (deps None) streams other_job)
    = (Go.Errorf "unrecognized update type: unknown", []).
Proof.
  destruct (unsupported_job_type_runs_nothing (deps None) streams other_job)
    as [Hcmd Hrun]; [discriminate | discriminate |].
  split; [apply Hcmd | apply (Hrun [])].
Defined.

(** A failing dataset run that reported "no changes to save", and a
    failing shell script that printed the same. *)
Lemma Factory_classifies_dataset_errors_witness :
  exec_M (Factory (deps None) streams (dataset_job NoOptions))
    = (NoChanges, [EvRun (datasetSaveCmd stored_order (teed streams) (dataset_job NoOptions))]) /\
  exec_M (Factory (deps None) streams shell_job)
    = (Go.Errorf "exit status 1", [EvRun (shellScriptCmd streams shell_job)]).
Proof.
  split.
  - destruct (Factory_classifies_dataset_errors (deps None) streams
                (dataset_job NoOptions)) as [H _].
    destruct (H eq_refl) as [_ Hrun]. exact Hrun.
  - destruct (Factory_classifies_dataset_errors (deps None) streams shell_job)
      as [_ H].
    destruct (H eq_refl) as [_ Hrun]. exact Hrun.
Defined.

Lemma Start_refuses_when_already_running_witness :
  http_Ping (deps None) "127.0.0.1:2506" = None /\
  exec_M (Start (deps None) "/home/me/.qri" None false)
    = (Go.Errorf "service already running", [EvPing "127.0.0.1:2506"]).
Proof.
  split; [reflexivity |].
  apply (Start_refuses_when_already_running (deps None) "/home/me/.qri" None false []).
  reflexivity.
Defined.

Lemma constructors_reject_bad_recurrence_witness :
  (exists msg,
     DatasetToJob (deps None) {| Peername := "me"; DsName := "foo";
                                 DsMeta := None; DsCommit := None |} "" None
     = Returned (None, Some msg)) /\
  DatasetToJob (deps None) dataset "every day" None
    = Returned (None, Go.Errorf "invalid repeating interval") /\
  ShellScriptToJob (deps None) "/bin/true" "" None
    = (None, Go.Errorf "invalid repeating interval").
Proof.
  split; [| split].
  - apply (constructors_reject_bad_recurrence (deps None)
             {| Peername := "me"; DsName := "foo"; DsMeta := None; DsCommit := None |}
             "" None "/bin/true" None); [reflexivity | discriminate].
  - apply (constructors_reject_bad_recurrence (deps None) dataset
             "every day" None "/bin/true" None) with (expr := "every day");
      [left; split; [discriminate | reflexivity] | reflexivity].
  - apply (constructors_reject_bad_recurrence (deps None) dataset
             "" None "/bin/true" None).
    reflexivity.
Defined.

Lemma DatasetToJob_falls_back_to_accrual_witness :
  DatasetToJob (deps None) dataset "" None
    = DatasetToJob (deps None) dataset "R/PT1M" None /\
  exists job,
    DatasetToJob (deps None) dataset "" None = Returned (Some job, None) /\
    Periodicity job = every_minute /\
    PrevRunStart job = 1000%Z /\
    Name job = "me/foo" /\
    Type_ job = JTDataset.
Proof.
  destruct (DatasetToJob_falls_back_to_accrual (deps None) dataset None)
    as (Hfall & _ & Hjob).
  split.
  - apply (Hfall {| AccrualPeriodicity := "R/PT1M" |}). reflexivity.
  - apply (Hjob {| AccrualPeriodicity := "R/PT1M" |} {| Timestamp := 1000%Z |}
             every_minute); [reflexivity | discriminate | reflexivity | reflexivity].
Defined.

End Instances.

(** ** Further properties: shell script paths *)

Section ShellScriptPaths.

Lemma string_length_app (a b : string) :
  String.length (a +:+ b) = String.length a + String.length b.
Proof. induction a as [|c a IH]; simpl; [reflexivity | by rewrite IH]. Qed.

Lemma substring_whole (s : string) : substring 0 (String.length s) s = s.
Proof. induction s as [|c s IH]; simpl; [reflexivity | by rewrite IH]. Qed.

(** A string is what comes before an index, then what comes from it on. *)
Lemma substring_split (s : string) : forall i,
  i <= String.length s ->
  s = substring 0 i s +:+ substring i (String.length s - i) s.
Proof.
  induction s as [|c s IH]; intros i Hi.
  - destruct i; reflexivity.
  - destruct i as [|i]; simpl.
    + by rewrite substring_whole.
    + simpl in Hi.
      change (String c s
              = String c (substring 0 i s +:+ substring i (String.length s - i) s)).
      f_equal. apply IH. lia.
Qed.

Lemma get_Some_lt (s : string) : forall i c,
  String.get i s = Some c -> i < String.length s.
Proof.
  induction s as [|d s IH]; intros i c H; [destruct i; discriminate |].
  destruct i as [|i]; simpl in *; [lia |].
  apply IH in H. lia.
Qed.

(** The extension found by the loop is a suffix of the path. *)
Lemma Ext_loop_suffix windows path n :
  Go.Ext_loop windows path n <> "" ->
  exists stem, path = stem +:+ Go.Ext_loop windows path n.
Proof.
  induction n as [|i IH]; simpl; [done |].
  destruct (String.get i path) as [c|] eqn:Hget; [| done].
  destruct (Go.IsPathSeparator windows c); [done |].
  destruct (Ascii.eqb c "."); [| exact IH].
  intros _. exists (substring 0 i path).
  apply substring_split. apply get_Some_lt in Hget. lia.
Qed.

Lemma get_after (stem s : string) k :
  String.get (String.length stem + k) (stem +:+ s) = String.get k s.
Proof. rewrite (append_correct2 stem s k). f_equal. lia. Qed.

(** X1.  A path is a possible shell script exactly when it ends in
    ".sh", whichever the platform's separators. *)
Theorem PossibleShellScript_iff_suffix windows path :
  PossibleShellScript windows path = true <-> exists stem, path = stem +:+ ".sh".
Proof.
  unfold PossibleShellScript, Go.Ext. rewrite String.eqb_eq. split.
  - intros H.
    destruct (Ext_loop_suffix windows path (String.length path)) as [stem Hs].
    + rewrite H. discriminate.
    + exists stem. by rewrite H in Hs.
  - intros [stem ->].
    rewrite string_length_app. simpl String.length.
    replace (String.length stem + 3) with (S (S (S (String.length stem)))) by lia.
    assert (Hh : String.get (S (S (String.length stem))) (stem +:+ ".sh") = Some "h"%char).
    { replace (S (S (String.length stem))) with (String.length stem + 2) by lia.
      by rewrite get_after. }
    assert (Hs : String.get (S (String.length stem)) (stem +:+ ".sh") = Some "s"%char).
    { replace (S (String.length stem)) with (String.length stem + 1) by lia.
      by rewrite get_after. }
    assert (Hd : String.get (String.length stem) (stem +:+ ".sh") = Some "."%char).
    { replace (String.length stem) with (String.length stem + 0) at 1 by lia.
      by rewrite get_after. }
    cbn [Go.Ext_loop]. rewrite Hh.
    replace (Go.IsPathSeparator windows "h") with false by (by destruct windows).
    cbn [Ascii.eqb Bool.eqb]. cbv iota.
    rewrite Hs.
    replace (Go.IsPathSeparator windows "s") with false by (by destruct windows).
    cbn [Ascii.eqb Bool.eqb]. cbv iota.
    rewrite Hd.
    replace (Go.IsPathSeparator windows ".") with false by (by destruct windows).
    cbn [Ascii.eqb Bool.eqb]. cbv iota.
    rewrite string_length_app. simpl String.length.
    replace (String.length stem + 3 - String.length stem) with 3 by lia.
    rewrite substring_skip. reflexivity.
Qed.

End ShellScriptPaths.

(** ** Further properties: running a job *)

Section RunOutcomes.

(** X2.  [processJobError] reports success exactly for a run that
    succeeded: it neither hides a failure nor invents one. *)
Theorem processJobError_nil_iff job errOut err :
  processJobError job errOut err = None <-> err = None.
Proof.
  unfold processJobError. destruct err as [e|]; [| done].
  split; [| discriminate].
  destruct (String.eqb (Type_ job) JTDataset), errOut as [text|]; try discriminate.
  destruct (Go.Contains text "no changes to save"); discriminate.
Qed.

(** X3.  [processJobError] replaces an error only for a Dataset job with
    a capture buffer whose text holds the phrase "no changes to save", and
    then by the no-changes error. *)
Theorem processJobError_replaces_only_no_changes job errOut err :
  processJobError job errOut err <> err ->
  Type_ job = JTDataset /\
  processJobError job errOut err = NoChanges /\
  exists before after,
    errOut = Some (before +:+ "no changes to save" +:+ after).
Proof.
  unfold processJobError. destruct err as [e|]; [| done].
  destruct (String.eqb (Type_ job) JTDataset) eqn:Ht; [| done].
  destruct errOut as [text|]; [| done].
  destruct (Go.Contains text "no changes to save") eqn:Hc; [| done].
  intros _. apply String.eqb_eq in Ht. apply Contains_iff in Hc.
  destruct Hc as (before & after & ->). eauto.
Qed.

(** X4.  The run function starts at most one command, and one exactly
    when the job is a Dataset or ShellScript job; that command has the
    caller's standard input and output; and the run succeeds exactly when
    a command was started and came back without error. *)
Theorem Factory_runs_at_most_one_command deps streams job :
  exists cmds,
    snd (exec_M (Factory deps streams job)) = map EvRun cmds /\
    length cmds <= 1 /\
    (cmds = [] <-> Type_ job <> JTDataset /\ Type_ job <> JTShellScript) /\
    (forall cmd, In cmd cmds ->
       exec.Stdin cmd = Some (ioes.In streams) /\
       exec.Stdout cmd = Some (ioes.Out streams)) /\
    (fst (exec_M (Factory deps streams job)) = None <->
     exists cmd, cmds = [cmd] /\ snd (cmd_Run deps cmd) = None).
Proof.
  destruct (String.eqb (Type_ job) JTDataset) eqn:Hd.
  - apply String.eqb_eq in Hd.
    pose proof (Factory_classifies_dataset_run deps streams job Hd) as H.
    cbv zeta in H. destruct H as [Hres Htr].
    exists [datasetSaveCmd (map_range deps) (teed streams) job].
    rewrite Htr, Hres.
    split; [reflexivity |]. split; [simpl; lia |].
    split; [split; [discriminate | intros [H _]; done] |].
    split; [intros c [<- | []]; split; reflexivity |].
    rewrite processJobError_nil_iff. split.
    + intros H. eauto.
    + intros (c & [= <-] & H). exact H.
  - destruct (String.eqb (Type_ job) JTShellScript) eqn:Hs.
    + apply String.eqb_eq in Hs.
      pose proof (Factory_shell_run deps streams job Hs) as H.
      cbv zeta in H. destruct H as [Hres Htr].
      exists [shellScriptCmd streams job].
      rewrite Htr, Hres.
      split; [reflexivity |]. split; [simpl; lia |].
      split; [split; [discriminate | intros [_ H]; done] |].
      split; [intros c [<- | []]; split; reflexivity |].
      split.
      * intros H. eauto.
      * intros (c & [= <-] & H). exact H.
    + exists []. unfold exec_M, Factory. rewrite Hd.
      apply String.eqb_neq in Hd, Hs.
      rewrite JobToCmd_other by done.
      split; [reflexivity |]. split; [simpl; lia |].
      split; [done |]. split; [intros c [] |].
      split; [discriminate | intros (c & [=] & _)].
Qed.

End RunOutcomes.

(** ** Further properties: starting the service *)

Section StartingMore.

Lemma start_unfold deps repoPath cfg tr :
  let path := filepath_Join deps repoPath RepoDirName in
  start deps repoPath cfg tr =
    match os_MkdirAll deps path with
    | Some e => (Some e, tr ++ [EvMkdirAll path])
    | None =>
        if String.eqb (UpdateType cfg) "fs" then
          (cron_Start deps,
           tr ++ [EvMkdirAll path;
                  EvNewFlatbufferJobStore (filepath_Join deps path "jobs.qfb");
                  EvNewFlatbufferJobStore (filepath_Join deps path "logs.qfb");
                  EvNewCron; EvGoServeHTTP (Address cfg); EvCronStart])
        else if String.eqb (UpdateType cfg) "mem" then
          (cron_Start deps,
           tr ++ [EvMkdirAll path; EvNewMemJobStore; EvNewMemJobStore;
                  EvNewCron; EvGoServeHTTP (Address cfg); EvCronStart])
        else (Go.Errorf ("unknown cron type: " +:+ UpdateType cfg),
              tr ++ [EvMkdirAll path])
    end.
Proof.
  intros path. unfold start, Path, bind, call, bind, emit, ret. fold path.
  destruct (os_MkdirAll deps path) as [e|]; [reflexivity |].
  destruct (String.eqb (UpdateType cfg) "fs");
    [| destruct (String.eqb (UpdateType cfg) "mem")];
    rewrite <- ?app_assoc; reflexivity.
Qed.

Lemma Start_unfold deps repoPath updateCfg daemonize tr :
  let cfg := default (DefaultUpdate deps) updateCfg in
  Start deps repoPath updateCfg daemonize tr =
    match http_Ping deps (Address cfg) with
    | None => (Go.Errorf "service already running", tr ++ [EvPing (Address cfg)])
    | Some _ =>
        if daemonize
        then (daemonInstall deps repoPath,
              tr ++ [EvPing (Address cfg); EvDaemonInstall repoPath])
        else start deps repoPath cfg (tr ++ [EvPing (Address cfg)])
    end.
Proof.
  intros cfg. unfold Start, bind, call, bind, emit, ret.
  assert (Hcfg : match updateCfg with Some c => c | None => DefaultUpdate deps end = cfg)
    by (by destruct updateCfg).
  rewrite Hcfg.
  destruct (http_Ping deps (Address cfg)); [| reflexivity].
  destruct daemonize; [| reflexivity].
  rewrite <- app_assoc. reflexivity.
Qed.

(** X5.  When nothing answers the liveness probe, [Start] with
    [daemonize] only installs the daemon and returns the installer's
    result; without it, [Start] goes on as [start] with the configuration
    in force. *)
Theorem Start_when_nothing_answers deps repoPath updateCfg daemonize tr :
  let cfg := default (DefaultUpdate deps) updateCfg in
  http_Ping deps (Address cfg) <> None ->
  Start deps repoPath updateCfg daemonize tr =
    if daemonize
    then (daemonInstall deps repoPath,
          tr ++ [EvPing (Address cfg); EvDaemonInstall repoPath])
    else start deps repoPath cfg (tr ++ [EvPing (Address cfg)]).
Proof.
  intros cfg Hping. rewrite Start_unfold. fold cfg.
  destruct (http_Ping deps (Address cfg)); [reflexivity | done].
Qed.

(** X6.  [start] fails without creating a store, a cron service or a
    server when the update directory cannot be made, with the error of
    [os.MkdirAll], and when the configured store type is neither "fs" nor
    "mem", with "unknown cron type"; in the second case the directory has
    been made all the same. *)
Theorem start_fails_before_any_store deps repoPath cfg tr :
  let path := filepath_Join deps repoPath "update" in
  (forall e, os_MkdirAll deps path = Some e ->
     start deps repoPath cfg tr = (Some e, tr ++ [EvMkdirAll path])) /\
  (os_MkdirAll deps path = None ->
   UpdateType cfg <> "fs" -> UpdateType cfg <> "mem" ->
     start deps repoPath cfg tr =
       (Go.Errorf ("unknown cron type: " +:+ UpdateType cfg),
        tr ++ [EvMkdirAll path])).
Proof.
  intros path. subst path. rewrite start_unfold. unfold RepoDirName. split.
  - intros e ->. reflexivity.
  - intros -> Hfs Hmem. apply String.eqb_neq in Hfs, Hmem.
    by rewrite Hfs, Hmem.
Qed.

(** X7.  With store type "fs", [start] keeps the jobs in
    [<repo>/update/jobs.qfb] and the logs in [<repo>/update/logs.qfb]; with
    "mem", in two memory stores; either way it then creates the cron
    service, serves HTTP on the configured address, starts the scheduler
    and returns the scheduler's result. *)
Theorem start_serves_from_update_directory deps repoPath cfg tr :
  let path := filepath_Join deps repoPath "update" in
  os_MkdirAll deps path = None ->
  UpdateType cfg = "fs" \/ UpdateType cfg = "mem" ->
  start deps repoPath cfg tr =
    (cron_Start deps,
     tr ++ [EvMkdirAll path] ++
       (if String.eqb (UpdateType cfg) "fs"
        then [EvNewFlatbufferJobStore (filepath_Join deps path "jobs.qfb");
              EvNewFlatbufferJobStore (filepath_Join deps path "logs.qfb")]
        else [EvNewMemJobStore; EvNewMemJobStore]) ++
       [EvNewCron; EvGoServeHTTP (Address cfg); EvCronStart]).
Proof.
  intros path Hdir Htype. subst path. rewrite start_unfold. unfold RepoDirName.
  rewrite Hdir. destruct Htype as [-> | ->]; reflexivity.
Qed.

(** X8.  In every run of [Start] the scheduler is started only after a
    job store and a log store were created, stores are created only in a
    run that starts the scheduler, and a run asked to install the daemon
    does neither. *)
Theorem Start_stores_iff_scheduler deps repoPath updateCfg daemonize :
  let tr := snd (exec_M (Start deps repoPath updateCfg daemonize)) in
  (In EvCronStart tr <-> length (filter (fun e => creates_store e = true) tr) = 2) /\
  (~ In EvCronStart tr -> filter (fun e => creates_store e = true) tr = []) /\
  (daemonize = true ->
   ~ In EvCronStart tr /\ filter (fun e => creates_store e = true) tr = []).
Proof.
  unfold exec_M. rewrite Start_unfold.
  set (cfg := default (DefaultUpdate deps) updateCfg).
  assert (Hnone : forall tr : list Event,
            ~ In EvCronStart tr ->
            filter (fun e => creates_store e = true) tr = [] ->
            (In EvCronStart tr <->
             length (filter (fun e => creates_store e = true) tr) = 2) /\
            (~ In EvCronStart tr -> filter (fun e => creates_store e = true) tr = []) /\
            (daemonize = true ->
             ~ In EvCronStart tr /\ filter (fun e => creates_store e = true) tr = [])).
  { intros tr Hno Hnil. rewrite Hnil. simpl.
    split; [split; [done | discriminate] |]. split; done. }
  destruct (http_Ping deps (Address cfg)) as [e|]; cbn [snd app].
  - destruct daemonize; cbn [snd app].
    + apply Hnone; [intros [|[|[]]]; discriminate | reflexivity].
    + rewrite start_unfold.
      set (path := filepath_Join deps repoPath RepoDirName).
      destruct (os_MkdirAll deps path) as [e'|]; cbn [snd app].
      * apply Hnone; [intros [|[|[]]]; discriminate | reflexivity].
      * destruct (String.eqb (UpdateType cfg) "fs");
          [| destruct (String.eqb (UpdateType cfg) "mem")]; cbn [snd app].
        -- split; [split; [reflexivity | intros _; simpl; do 6 right; by left] |].
           split; [intros H; exfalso; apply H; simpl; do 6 right; by left
                  | discriminate].
        -- split; [split; [reflexivity | intros _; simpl; do 6 right; by left] |].
           split; [intros H; exfalso; apply H; simpl; do 6 right; by left
                  | discriminate].
        -- apply Hnone; [intros [|[|[]]]; discriminate | reflexivity].
  - apply Hnone; [intros [|[]]; discriminate | reflexivity].
Qed.

End StartingMore.

(** ** Further properties: the dataset command *)

Section CommandMore.

(** X9.  The configuration and the secrets of the options never reach
    the command: with others in their place the command is the same. *)
Theorem datasetSaveCmd_leaves_out_config_and_secrets r streams job o config secrets :
  Options_ job = OfDataset o ->
  JobToCmd r streams (set_Options job (OfDataset (with_config o config secrets)))
    = JobToCmd r streams job.
Proof.
  intros Ho. unfold JobToCmd, datasetSaveCmd, shellScriptCmd.
  rewrite (datasetSaveArgs_with_options r job o Ho).
  rewrite (datasetSaveArgs_with_options r
             (set_Options job (OfDataset (with_config o config secrets)))
             (with_config o config secrets) eq_refl).
  reflexivity.
Qed.

(** A permutation of a list of at most one element is that list. *)
Lemma Permutation_short {A} (l k : list A) :
  length k <= 1 -> l ≡ₚ k -> l = k.
Proof.
  intros Hlen Hperm. destruct k as [|x [|y k]]; simpl in Hlen; [| | lia].
  - by apply Permutation_nil_r.
  - by apply Permutation_singleton_r.
Qed.

(** X10.  When the options set at most one boolean flag, the command
    does not depend on the order of the map iteration. *)
Theorem JobToCmd_deterministic_with_one_flag r1 r2 streams job :
  Go.MapRange_ok r1 ->
  Go.MapRange_ok r2 ->
  (forall o, Options_ job = OfDataset o -> length (bool_args o) <= 1) ->
  JobToCmd r1 streams job = JobToCmd r2 streams job.
Proof.
  intros H1 H2 Hone. unfold JobToCmd, datasetSaveCmd.
  destruct (String.eqb (Type_ job) JTDataset); [| reflexivity].
  do 3 f_equal.
  destruct (Options_ job) as [| o | o] eqn:Ho.
  - rewrite !datasetSaveArgs_without_options by (rewrite Ho; congruence).
    reflexivity.
  - rewrite !(datasetSaveArgs_with_options _ job o Ho). do 2 f_equal.
    rewrite (Permutation_short (ranged_flags r1 o) (bool_args o));
      [| by apply Hone | by apply ranged_flags_perm].
    symmetry. apply Permutation_short; [by apply Hone | by apply ranged_flags_perm].
  - rewrite !datasetSaveArgs_without_options by (rewrite Ho; congruence).
    reflexivity.
Qed.

End CommandMore.

(** ** Further properties: the job constructors *)

Section ConstructorsMore.

(** X11.  A periodicity given to [DatasetToJob] takes precedence: the
    meta component of the dataset then plays no part. *)
Theorem DatasetToJob_argument_takes_precedence deps ds periodicity opts meta :
  periodicity <> "" ->
  DatasetToJob deps (with_Meta ds meta) periodicity opts
    = DatasetToJob deps ds periodicity opts.
Proof.
  intros Hne. apply String.eqb_neq in Hne.
  unfold DatasetToJob. rewrite Hne. reflexivity.
Qed.

Lemma DatasetToJob_in_force deps ds periodicity opts :
  DatasetToJob deps ds periodicity opts =
    let expr := recurrence_in_force ds periodicity in
    if String.eqb expr "" then
      Returned (None, Go.Errorf "scheduling dataset updates requires a meta component with accrualPeriodicity set")
    else
      match ParseRepeatingInterval deps expr with
      | (_, Some e) => Returned (None, Some e)
      | (p, None) =>
          match DsCommit ds with
          | None => Panicked
          | Some c =>
              let job := new_Job (Peername ds +:+ "/" +:+ DsName ds) p JTDataset (Timestamp c) in
              let job := match opts with
                         | Some o => set_Options job (OfDataset o)
                         | None => job
                         end in
              Returned (Some job, Validate deps job)
          end
      end.
Proof.
  unfold DatasetToJob, recurrence_in_force, nonempty.
  destruct (String.eqb periodicity "") eqn:Hp; cbn [negb].
  - apply String.eqb_eq in Hp. subst periodicity.
    destruct (DsMeta ds) as [m|]; [| reflexivity].
    destruct (String.eqb (AccrualPeriodicity m) "") eqn:Hm; cbn [negb].
    + reflexivity.
    + cbv zeta. rewrite ?Hm.
      destruct (ParseRepeatingInterval deps (AccrualPeriodicity m)) as [p [e|]];
        reflexivity.
  - cbv zeta. rewrite ?Hp.
    destruct (ParseRepeatingInterval deps periodicity) as [p [e|]]; reflexivity.
Qed.

(** X12.  [DatasetToJob] panics exactly when the dataset has no commit
    although the recurrence expression in force is there and parses. *)
Theorem DatasetToJob_panics_iff deps ds periodicity opts :
  DatasetToJob deps ds periodicity opts = Panicked <->
  DsCommit ds = None /\
  recurrence_in_force ds periodicity <> "" /\
  snd (ParseRepeatingInterval deps (recurrence_in_force ds periodicity)) = None.
Proof.
  rewrite DatasetToJob_in_force. cbv zeta.
  destruct (String.eqb (recurrence_in_force ds periodicity) "") eqn:He.
  - apply String.eqb_eq in He. split; [discriminate | intros (_ & H & _); done].
  - apply String.eqb_neq in He.
    destruct (ParseRepeatingInterval deps (recurrence_in_force ds periodicity))
      as [p [e|]]; simpl.
    + split; [discriminate | intros (_ & _ & H); discriminate].
    + destruct (DsCommit ds) as [c|].
      * split; [destruct opts; discriminate | intros (H & _); discriminate].
      * split; [done | done].
Qed.

(** X13.  Once its expression parses, [ShellScriptToJob] returns a
    ShellScript job named after the path as it stands, with the parsed
    periodicity, the options given or none, and every other field zero,
    together with whatever [Validate] says of that job. *)
Theorem ShellScriptToJob_builds_the_job deps path periodicity opts p :
  ParseRepeatingInterval deps periodicity = (p, None) ->
  let job :=
    set_Options (new_Job path p JTShellScript Go.zero_Time)
      (match opts with Some o => OfShellScript o | None => NoOptions end) in
  ShellScriptToJob deps path periodicity opts = (Some job, Validate deps job).
Proof.
  intros Hp. unfold ShellScriptToJob. rewrite Hp. destruct opts; reflexivity.
Qed.

(** X14.  A job made by [DatasetToJob] is run as "qri save
    <Peername>/<Name>" followed by the flags of the options given, if
    any: never with [--repo=], and with nothing more when no options were
    given. *)
Theorem DatasetToJob_then_JobToCmd deps ds periodicity opts job err r streams :
  Go.MapRange_ok r ->
  DatasetToJob deps ds periodicity opts = Returned (Some job, err) ->
  exists cmd flags,
    JobToCmd r streams job = Some cmd /\
    exec.Path cmd = "qri" /\
    arguments cmd =
      ["save"; Peername ds +:+ "/" +:+ DsName ds] ++
      match opts with
      | Some o => option_args o ++ flags
      | None => []
      end /\
    flags ≡ₚ match opts with Some o => bool_args o | None => [] end.
Proof.
  intros Hr H. rewrite DatasetToJob_in_force in H. cbv zeta in H.
  destruct (String.eqb (recurrence_in_force ds periodicity) ""); [discriminate |].
  destruct (ParseRepeatingInterval deps (recurrence_in_force ds periodicity))
    as [p [e|]]; [discriminate |].
  destruct (DsCommit ds) as [c|]; [| discriminate].
  destruct opts as [o|]; inversion H; subst; clear H.
  - eexists _, (ranged_flags r o).
    split; [reflexivity |]. split; [reflexivity |].
    split; [| by apply ranged_flags_perm].
    unfold arguments. cbn [exec.Args datasetSaveCmd exec.with_streams exec.Command tl].
    rewrite (datasetSaveArgs_with_options r
               (set_Options (new_Job (Peername ds +:+ "/" +:+ DsName ds) p
                               JTDataset (Timestamp c)) (OfDataset o))
               o eq_refl).
    reflexivity.
  - eexists _, [].
    split; [reflexivity |]. split; [reflexivity |]. split; [| reflexivity].
    reflexivity.
Qed.

(** X15.  A job made by [ShellScriptToJob] is run as the path alone, and
    the run reports the error of that command unchanged, whatever the
    command wrote. *)
Theorem ShellScriptToJob_then_Factory deps path periodicity opts job err streams :
  ShellScriptToJob deps path periodicity opts = (Some job, err) ->
  exists cmd,
    exec_M (Factory deps streams job) = (snd (cmd_Run deps cmd), [EvRun cmd]) /\
    exec.Path cmd = path /\
    exec.Args cmd = [path] /\
    exec.Stderr cmd = Some (ioes.ErrOut streams).
Proof.
  intros H. unfold ShellScriptToJob in H.
  destruct (ParseRepeatingInterval deps periodicity) as [p [e|]]; [discriminate |].
  assert (Hjob : Type_ job = JTShellScript /\ Name job = path).
  { destruct opts; inversion H; subst; split; reflexivity. }
  destruct Hjob as [Ht Hn].
  pose proof (Factory_shell_run deps streams job Ht) as Hrun. cbv zeta in Hrun.
  destruct Hrun as [Hres Htr].
  exists (shellScriptCmd streams job).
  split; [| by rewrite <- Hn].
  rewrite <- Hres, <- Htr. by destruct (exec_M (Factory deps streams job)).
Qed.

End ConstructorsMore.

(** ** Further properties: the connection announcement *)

Section Connected.
Variable deps : p2p.Deps.

Lemma decodeAddrs_all addrs : forall pi,
  Forall (parses deps) addrs ->
  p2p.decodeAddrs deps addrs pi =
    ({| p2p.PeerInfoID := p2p.PeerInfoID pi;
        p2p.PeerInfoAddrs := p2p.PeerInfoAddrs pi ++ map (parsed deps) addrs |}, None).
Proof.
  induction addrs as [|a addrs IH]; intros pi Hall; simpl.
  - rewrite app_nil_r. by destruct pi.
  - inversion Hall as [|? ? Ha Hrest]; subst. unfold parses in Ha.
    unfold parsed at 1.
    destruct (p2p.NewMultiaddr deps a) as [m e]. simpl in Ha. subst e.
    rewrite (IH _ Hrest). simpl. by rewrite <- app_assoc.
Qed.

Lemma decodeAddrs_stops good : forall pi bad rest e,
  Forall (parses deps) good ->
  snd (p2p.NewMultiaddr deps bad) = Some e ->
  p2p.decodeAddrs deps (good ++ bad :: rest) pi =
    ({| p2p.PeerInfoID := p2p.PeerInfoID pi;
        p2p.PeerInfoAddrs := p2p.PeerInfoAddrs pi ++ map (parsed deps) good |}, Some e).
Proof.
  induction good as [|a good IH]; intros pi bad rest e Hall Hbad; simpl.
  - destruct (p2p.NewMultiaddr deps bad) as [m e']. simpl in Hbad. subst e'.
    rewrite app_nil_r. by destruct pi.
  - inversion Hall as [|? ? Ha Hrest]; subst. unfold parses in Ha.
    unfold parsed at 1.
    destruct (p2p.NewMultiaddr deps a) as [m e']. simpl in Ha. subst e'.
    rewrite (IH _ bad rest e Hrest Hbad). simpl. by rewrite <- app_assoc.
Qed.

Lemma decodeAddrs_ok_inv addrs : forall pi,
  snd (p2p.decodeAddrs deps addrs pi) = None -> Forall (parses deps) addrs.
Proof.
  induction addrs as [|a addrs IH]; intros pi H; [constructor |].
  simpl in H. destruct (p2p.NewMultiaddr deps a) as [m [e|]] eqn:Ha.
  - discriminate.
  - constructor; [unfold parses; by rewrite Ha | by eapply IH].
Qed.

(** X16.  [Decode] succeeds exactly when the identifier decodes and every
    address parses, and then yields the decoded identifier with the
    parsed addresses, one per address of the pod and in the pod's order. *)
Theorem Decode_succeeds_iff pod :
  (snd (p2p.Decode deps pod) = None <->
   snd (p2p.IDB58Decode deps (p2p.ID pod)) = None /\
   Forall (fun mstr => snd (p2p.NewMultiaddr deps mstr) = None) (p2p.Addrs pod)) /\
  (snd (p2p.Decode deps pod) = None ->
   fst (p2p.Decode deps pod) =
     {| p2p.PeerInfoID := fst (p2p.IDB58Decode deps (p2p.ID pod));
        p2p.PeerInfoAddrs :=
          map (fun mstr => fst (p2p.NewMultiaddr deps mstr)) (p2p.Addrs pod) |}).
Proof.
  unfold p2p.Decode.
  destruct (p2p.IDB58Decode deps (p2p.ID pod)) as [id [e|]]; simpl.
  - split; [split; [discriminate | intros [H _]; discriminate] | discriminate].
  - split.
    + split.
      * intros H. split; [reflexivity |]. by apply decodeAddrs_ok_inv in H.
      * intros [_ H]. by rewrite decodeAddrs_all.
    + intros H. apply decodeAddrs_ok_inv in H. by rewrite decodeAddrs_all.
Qed.

(** X17.  [Decode] stops at the first address that does not parse: it
    returns that address's error together with the identifier and the
    addresses parsed so far, and does not look at the rest.  When the
    identifier does not decode it returns the empty peer info. *)
Theorem Decode_stops_at_first_bad_address pod :
  (forall e, snd (p2p.IDB58Decode deps (p2p.ID pod)) = Some e ->
     p2p.Decode deps pod = (p2p.zero_PeerInfo, Some e)) /\
  (forall good bad rest e,
     snd (p2p.IDB58Decode deps (p2p.ID pod)) = None ->
     p2p.Addrs pod = good ++ bad :: rest ->
     Forall (fun mstr => snd (p2p.NewMultiaddr deps mstr) = None) good ->
     snd (p2p.NewMultiaddr deps bad) = Some e ->
     p2p.Decode deps pod =
       ({| p2p.PeerInfoID := fst (p2p.IDB58Decode deps (p2p.ID pod));
           p2p.PeerInfoAddrs :=
             map (fun mstr => fst (p2p.NewMultiaddr deps mstr)) good |}, Some e)).
Proof.
  unfold p2p.Decode. split.
  - intros e H. destruct (p2p.IDB58Decode deps (p2p.ID pod)) as [id e'].
    simpl in H. by subst e'.
  - intros good bad rest e Hid Haddrs Hgood Hbad.
    destruct (p2p.IDB58Decode deps (p2p.ID pod)) as [id e'].
    simpl in Hid. subst e'. rewrite Haddrs.
    by rewrite (decodeAddrs_stops good _ bad rest e Hgood Hbad).
Qed.

(** X18.  [handleConnected] never asks to hang up, never touches the
    entry of another message, and does nothing at all for a message it
    has already seen. *)
Theorem handleConnected_never_hangs_up msgState msg :
  (p2p.handleConnected deps msgState msg).1.1 = false /\
  (forall other, other <> p2p.MsgID msg ->
     (p2p.handleConnected deps msgState msg).1.2 !! other = msgState !! other) /\
  (is_Some (msgState !! p2p.MsgID msg) ->
   p2p.handleConnected deps msgState msg = (false, msgState, [])).
Proof.
  unfold p2p.handleConnected.
  destruct (msgState !! p2p.MsgID msg) as [b|] eqn:Hseen.
  - repeat split.
  - destruct (p2p.json_Unmarshal deps (p2p.Body msg)) as [pip [e|]];
      [split; [done | split; [done | by intros [? [=]]]] |].
    destruct (p2p.Decode deps pip) as [pinfo [e|]];
      [split; [done | split; [done | by intros [? [=]]]] |].
    destruct (p2p.RequestProfile deps (p2p.PeerInfoID pinfo)) as [e|];
      [split; [done | split; [done | by intros [? [=]]]] |].
    split; [done |]. split; [| by intros [? [=]]].
    intros other Hother. simpl. by rewrite lookup_insert_ne.
Qed.

(** X19.  A message not seen before that is accepted has the peer's
    addresses added to the peer store, then the profile requested, and is
    then marked as seen, to be forgotten a minute later; delivered again
    while it is marked, it is ignored. *)
Theorem handleConnected_marks_accepted_message msgState msg :
  msgState !! p2p.MsgID msg = None ->
  accepted deps msg ->
  p2p.handleConnected deps msgState msg =
    (false, <[p2p.MsgID msg := true]> msgState,
     [p2p.EvAddAddrs (p2p.PeerInfoID (announced deps msg))
        (p2p.PeerInfoAddrs (announced deps msg));
      p2p.EvRequestProfile (p2p.PeerInfoID (announced deps msg));
      p2p.EvGoForgetAfterMinute (p2p.MsgID msg)]) /\
  p2p.handleConnected deps (p2p.handleConnected deps msgState msg).1.2 msg =
    (false, <[p2p.MsgID msg := true]> msgState, []).
Proof.
  intros Hnew (Hjson & Hdec & Hreq). unfold announced in *.
  assert (Hfirst : p2p.handleConnected deps msgState msg =
    (false, <[p2p.MsgID msg := true]> msgState,
     [p2p.EvAddAddrs (p2p.PeerInfoID (announced deps msg))
        (p2p.PeerInfoAddrs (announced deps msg));
      p2p.EvRequestProfile (p2p.PeerInfoID (announced deps msg));
      p2p.EvGoForgetAfterMinute (p2p.MsgID msg)])).
  { unfold p2p.handleConnected, announced. rewrite Hnew.
    destruct (p2p.json_Unmarshal deps (p2p.Body msg)) as [pip e].
    simpl in *. subst e.
    destruct (p2p.Decode deps pip) as [pinfo e]. simpl in *. subst e.
    by rewrite Hreq. }
  split; [exact Hfirst |].
  rewrite Hfirst. simpl. unfold p2p.handleConnected.
  by rewrite lookup_insert_eq.
Qed.

(** X20.  A message that is not accepted is never marked as seen.  When
    only the profile request fails, the addresses have been added all the
    same; when the body or the pod does not decode, nothing is done. *)
Theorem handleConnected_leaves_rejected_unmarked msgState msg :
  msgState !! p2p.MsgID msg = None ->
  (snd (p2p.json_Unmarshal deps (p2p.Body msg)) = None ->
   snd (p2p.Decode deps (fst (p2p.json_Unmarshal deps (p2p.Body msg)))) = None ->
   p2p.RequestProfile deps (p2p.PeerInfoID (announced deps msg)) <> None ->
   p2p.handleConnected deps msgState msg =
     (false, msgState,
      [p2p.EvAddAddrs (p2p.PeerInfoID (announced deps msg))
         (p2p.PeerInfoAddrs (announced deps msg));
       p2p.EvRequestProfile (p2p.PeerInfoID (announced deps msg))])) /\
  (snd (p2p.json_Unmarshal deps (p2p.Body msg)) <> None \/
   snd (p2p.Decode deps (fst (p2p.json_Unmarshal deps (p2p.Body msg)))) <> None ->
   p2p.handleConnected deps msgState msg = (false, msgState, [])).
Proof.
  intros Hnew. unfold p2p.handleConnected, announced. rewrite Hnew.
  destruct (p2p.json_Unmarshal deps (p2p.Body msg)) as [pip [e|]]; simpl.
  - split; [discriminate | reflexivity].
  - destruct (p2p.Decode deps pip) as [pinfo [e|]]; simpl.
    + split; [discriminate | reflexivity].
    + split.
      * intros _ _ Hreq.
        by destruct (p2p.RequestProfile deps (p2p.PeerInfoID pinfo)).
      * intros [H | H]; done.
Qed.

End Connected.

(** ** Instances of the further properties *)

Section MoreInstances.
Import Sample.

Lemma processJobError_replaces_only_no_changes_witness :
  Type_ (dataset_job NoOptions) = JTDataset /\
  processJobError (dataset_job NoOptions) (Some "error: no changes to save")
    (Go.Errorf "exit status 1") = NoChanges /\
  exists before after,
    Some "error: no changes to save"
    = Some (before +:+ "no changes to save" +:+ after).
Proof.
  apply (processJobError_replaces_only_no_changes (dataset_job NoOptions)
           (Some "error: no changes to save") (Go.Errorf "exit status 1")).
  vm_compute. discriminate.
Defined.

Lemma Start_when_nothing_answers_witness :
  exec_M (Start (deps (Go.Errorf "connection refused")) "/home/me/.qri" None true)
    = (None, [EvPing "127.0.0.1:2506"; EvDaemonInstall "/home/me/.qri"]).
Proof.
  apply (Start_when_nothing_answers (deps (Go.Errorf "connection refused"))
           "/home/me/.qri" None true []).
  discriminate.
Defined.

Lemma start_fails_before_any_store_witness :
  start (deps None) "/home/me/.qri" {| UpdateType := "sql"; Address := "a:1" |} []
    = (Go.Errorf "unknown cron type: sql", [EvMkdirAll "/home/me/.qri/update"]).
Proof.
  apply (start_fails_before_any_store (deps None) "/home/me/.qri"
           {| UpdateType := "sql"; Address := "a:1" |} []);
    [reflexivity | discriminate | discriminate].
Defined.

Lemma start_serves_from_update_directory_witness :
  start (deps None) "/home/me/.qri" {| UpdateType := "fs"; Address := "a:1" |} []
    = (None,
       [EvMkdirAll "/home/me/.qri/update";
        EvNewFlatbufferJobStore "/home/me/.qri/update/jobs.qfb";
        EvNewFlatbufferJobStore "/home/me/.qri/update/logs.qfb";
        EvNewCron; EvGoServeHTTP "a:1"; EvCronStart]).
Proof.
  apply (start_serves_from_update_directory (deps None) "/home/me/.qri"
           {| UpdateType := "fs"; Address := "a:1" |} []);
    [reflexivity | left; reflexivity].
Defined.

Lemma Start_stores_iff_scheduler_witness :
  ~ In EvCronStart
      (snd (exec_M (Start (deps (Go.Errorf "connection refused")) "/r" None true))) /\
  filter (fun e => creates_store e = true)
    (snd (exec_M (Start (deps (Go.Errorf "connection refused")) "/r" None true))) = [].
Proof.
  apply (Start_stores_iff_scheduler (deps (Go.Errorf "connection refused"))
           "/r" None true).
  reflexivity.
Defined.

Lemma datasetSaveCmd_leaves_out_config_and_secrets_witness :
  JobToCmd stored_order streams
    (set_Options (dataset_job (OfDataset full_options))
       (OfDataset (with_config full_options [("k", "v")] [("token", "s3cr3t")])))
  = JobToCmd stored_order streams (dataset_job (OfDataset full_options)).
Proof.
  apply (datasetSaveCmd_leaves_out_config_and_secrets stored_order streams
           (dataset_job (OfDataset full_options)) full_options).
  reflexivity.
Defined.

Lemma JobToCmd_deterministic_with_one_flag_witness :
  JobToCmd stored_order streams (dataset_job (OfDataset no_options))
  = JobToCmd reversed streams (dataset_job (OfDataset no_options)).
Proof.
  apply (JobToCmd_deterministic_with_one_flag stored_order reversed streams
           (dataset_job (OfDataset no_options)) stored_order_ok reversed_ok).
  intros o [= <-]. simpl. lia.
Defined.

Lemma DatasetToJob_argument_takes_precedence_witness :
  DatasetToJob (deps None) (with_Meta dataset None) "R/PT1M" None
  = DatasetToJob (deps None) dataset "R/PT1M" None.
Proof.
  apply (DatasetToJob_argument_takes_precedence (deps None) dataset "R/PT1M" None None).
  discriminate.
Defined.

Lemma ShellScriptToJob_builds_the_job_witness :
  ShellScriptToJob (deps None) "" "R/PT1M" None
  = (Some (set_Options (new_Job "" every_minute JTShellScript Go.zero_Time) NoOptions),
     None).
Proof.
  apply (ShellScriptToJob_builds_the_job (deps None) "" "R/PT1M" None every_minute).
  reflexivity.
Defined.

Lemma DatasetToJob_then_JobToCmd_witness :
  exists cmd flags,
    JobToCmd reversed streams
      (set_Options (new_Job "me/foo" every_minute JTDataset 1000%Z)
         (OfDataset full_options)) = Some cmd /\
    exec.Path cmd = "qri" /\
    arguments cmd =
      ["save"; "me/foo"; "--title=title"; "--message=msg"; "--body=body.csv";
       "--file=meta.json"; "--file=structure.json"] ++ flags /\
    flags ≡ₚ ["--publish"; "--strict"].
Proof.
  apply (DatasetToJob_then_JobToCmd (deps None) dataset "" (Some full_options)
           (set_Options (new_Job "me/foo" every_minute JTDataset 1000%Z)
              (OfDataset full_options))
           None reversed streams reversed_ok).
  reflexivity.
Defined.

Lemma ShellScriptToJob_then_Factory_witness :
  exists cmd,
    exec_M (Factory (deps None) streams
              (new_Job "/bin/true" every_minute JTShellScript Go.zero_Time))
      = (snd (cmd_Run (deps None) cmd), [EvRun cmd]) /\
    exec.Path cmd = "/bin/true" /\
    exec.Args cmd = ["/bin/true"] /\
    exec.Stderr cmd = Some (ioes.ErrOut streams).
Proof.
  apply (ShellScriptToJob_then_Factory (deps None) "/bin/true" "R/PT1M" None
           (new_Job "/bin/true" every_minute JTShellScript Go.zero_Time)
           None streams).
  reflexivity.
Defined.

Lemma Decode_succeeds_iff_witness :
  fst (p2p.Decode (p2p_deps None)
         {| p2p.ID := "QmPeer"; p2p.Addrs := ["/ip4/1.2.3.4/tcp/4001"; "/dns4/qri.io"] |})
  = {| p2p.PeerInfoID := "QmPeer";
       p2p.PeerInfoAddrs := ["/ip4/1.2.3.4/tcp/4001"; "/dns4/qri.io"] |}.
Proof.
  apply (Decode_succeeds_iff (p2p_deps None)
           {| p2p.ID := "QmPeer";
              p2p.Addrs := ["/ip4/1.2.3.4/tcp/4001"; "/dns4/qri.io"] |}).
  reflexivity.
Defined.

Lemma Decode_stops_at_first_bad_address_witness :
  p2p.Decode (p2p_deps None) pod
  = ({| p2p.PeerInfoID := "QmPeer"; p2p.PeerInfoAddrs := ["/ip4/1.2.3.4/tcp/4001"] |},
     Go.Errorf "invalid multiaddr").
Proof.
  apply (Decode_stops_at_first_bad_address (p2p_deps None) pod)
    with (good := ["/ip4/1.2.3.4/tcp/4001"]) (bad := "bad")
         (rest := ["/ip4/5.6.7.8/tcp/4001"]);
    [reflexivity | reflexivity | repeat constructor | reflexivity].
Defined.

Lemma handleConnected_never_hangs_up_witness :
  p2p.handleConnected (p2p_deps None) {[ "m1" := true ]} message
  = (false, {[ "m1" := true ]}, []).
Proof.
  apply (handleConnected_never_hangs_up (p2p_deps None) {[ "m1" := true ]} message).
  exists true. reflexivity.
Defined.

Lemma handleConnected_marks_accepted_message_witness :
  p2p.handleConnected (p2p_deps None) ∅ message =
    (false, {[ "m1" := true ]},
     [p2p.EvAddAddrs "QmPeer" ["/ip4/1.2.3.4/tcp/4001"];
      p2p.EvRequestProfile "QmPeer";
      p2p.EvGoForgetAfterMinute "m1"]) /\
  p2p.handleConnected (p2p_deps None)
    (p2p.handleConnected (p2p_deps None) ∅ message).1.2 message =
    (false, {[ "m1" := true ]}, []).
Proof.
  apply (handleConnected_marks_accepted_message (p2p_deps None) ∅ message);
    [reflexivity | repeat split].
Defined.

Lemma handleConnected_leaves_rejected_unmarked_witness :
  p2p.handleConnected (p2p_deps (Go.Errorf "no profile")) ∅ message =
    (false, ∅,
     [p2p.EvAddAddrs "QmPeer" ["/ip4/1.2.3.4/tcp/4001"];
      p2p.EvRequestProfile "QmPeer"]).
Proof.
  apply (handleConnected_leaves_rejected_unmarked (p2p_deps (Go.Errorf "no profile"))
           ∅ message); [reflexivity | reflexivity | reflexivity | discriminate].
Defined.

End MoreInstances.
